(** * internal/gfwlist: the GFWList rule parser and matching engine

    A shallow embedding of [internal/gfwlist/gfwlist.go].  Go strings are
    byte strings ([string], one [ascii] per byte, so [String.length] is Go's
    [len]); the rule map is a [gmap string gfwListRule]; [match], which
    writes through its [*url.URL] argument and may call [log.Error], runs in
    a small state monad over the log and hands back the URL it leaves behind
    the pointer.  Slice expressions that can go out of range are kept
    fallible ([outcome]). *)

From Stdlib Require Import Ascii String Bool Arith Lia.
From stdpp Require Import base option list gmap strings.

Local Open Scope stdpp_scope.

(** ** Results of code that can panic *)

Inductive outcome (A : Type) : Type :=
| Done (a : A)
| Panic (msg : string).
Arguments Done {A} a.
Arguments Panic {A} msg.

Definition obind {A B} (x : outcome A) (k : A → outcome B) : outcome B :=
  match x with
  | Done a => k a
  | Panic msg => Panic msg
  end.

Notation "'let!' x ':=' c 'in' k" := (obind c (λ x, k))
  (at level 10, x pattern, c at level 100, k at level 200, only parsing).

(** ** The functions of package [strings] the file calls *)

Module strings.

(** [strings.HasPrefix(s, prefix)] *)
Fixpoint HasPrefix (s prefix : string) {struct prefix} : bool :=
  match prefix, s with
  | EmptyString, _ => true
  | String _ _, EmptyString => false
  | String p prefix', String c s' =>
      if Ascii.eqb c p then HasPrefix s' prefix' else false
  end.

(** [strings.HasSuffix(s, suffix)]:
    [len(s) >= len(suffix) && s[len(s)-len(suffix):] == suffix] *)
Definition HasSuffix (s suffix : string) : bool :=
  (String.length suffix <=? String.length s)
  && String.eqb
       (String.substring (String.length s - String.length suffix)
          (String.length suffix) s)
       suffix.

(** [strings.Contains(s, substr)], that is [strings.Index(s, substr) >= 0] *)
Fixpoint Contains (s substr : string) : bool :=
  HasPrefix s substr
  || match s with
     | EmptyString => false
     | String _ s' => Contains s' substr
     end.

(** [strings.Split(s, sep)] for a separator of one byte, which is the
    only way the file calls it ([strings.Split(domain, ".")]).  [cur]
    holds the bytes of the field being read, last byte first. *)
Fixpoint Split_go (sep : ascii) (cur : string) (s : string) : list string :=
  match s with
  | EmptyString => [String.rev cur]
  | String c s' =>
      if Ascii.eqb c sep
      then String.rev cur :: Split_go sep EmptyString s'
      else Split_go sep (String c cur) s'
  end.

Definition Split (s : string) (sep : ascii) : list string :=
  Split_go sep EmptyString s.

(** [strings.Join(elems, sep)] *)
Fixpoint Join (elems : list string) (sep : string) : string :=
  match elems with
  | [] => EmptyString
  | [e] => e
  | e :: rest => e +:+ sep +:+ Join rest sep
  end.

(** [strings.IndexByte(s, c)]; [None] stands for -1. *)
Fixpoint IndexByte (s : string) (c : ascii) : option nat :=
  match s with
  | EmptyString => None
  | String d s' =>
      if Ascii.eqb d c then Some 0 else S <$> IndexByte s' c
  end.

(** [strings.LastIndexByte(s, c)]; [None] stands for -1. *)
Fixpoint LastIndexByte (s : string) (c : ascii) : option nat :=
  match s with
  | EmptyString => None
  | String d s' =>
      match LastIndexByte s' c with
      | Some i => Some (S i)
      | None => if Ascii.eqb d c then Some 0 else None
      end
  end.

End strings.

(** ** Slice expressions on strings *)

Fixpoint string_drop (n : nat) (s : string) : string :=
  match n, s with
  | 0, _ => s
  | S _, EmptyString => EmptyString
  | S n', String _ s' => string_drop n' s'
  end.

Fixpoint string_take (n : nat) (s : string) : string :=
  match n, s with
  | 0, _ => EmptyString
  | S _, EmptyString => EmptyString
  | S n', String c s' => String c (string_take n' s')
  end.

(** [s[lo:hi]]: panics unless [lo <= hi <= len(s)]. *)
Definition slice (s : string) (lo hi : nat) : outcome string :=
  if (lo <=? hi) && (hi <=? String.length s)
  then Done (string_take (hi - lo) (string_drop lo s))
  else Panic "slice bounds out of range".

(** [s[lo:]] *)
Definition slice_from (s : string) (lo : nat) : outcome string :=
  slice s lo (String.length s).

(** [s[i]] read where the code has already checked [i < len(s)]. *)
Definition byte_at (s : string) (i : nat) : ascii :=
  match String.get i s with
  | Some c => c
  | None => Ascii.zero
  end.

(** ** [net.SplitHostPort]

    Go returns [(host, port, err)]; on every error path host and port are
    the empty string.  The error is its [Err] text. *)

Module net.

Definition missingPort : string := "missing port in address".
Definition tooManyColons : string := "too many colons in address".

Definition addrErr (why : string) : string * string * option string :=
  ("", "", Some why).

(** The two checks and the port split after the host has been found:
    [j] and [k] are where the searches for a stray '[' and ']' start. *)
Definition SplitHostPort_tail (hostport host : string) (i j k : nat)
  : string * string * option string :=
  if bool_decide (is_Some (strings.IndexByte (string_drop j hostport) "["%char))
  then addrErr "unexpected '[' in address"
  else if bool_decide (is_Some (strings.IndexByte (string_drop k hostport) "]"%char))
  then addrErr "unexpected ']' in address"
  else (host, string_drop (i + 1) hostport, None).

Definition SplitHostPort (hostport : string) : string * string * option string :=
  match strings.LastIndexByte hostport ":"%char with
  | None => addrErr missingPort
  | Some i =>
      if Ascii.eqb (byte_at hostport 0) "["%char then
        match strings.IndexByte hostport "]"%char with
        | None => addrErr "missing ']' in address"
        | Some end_ =>
            if end_ + 1 =? String.length hostport then addrErr missingPort
            else if end_ + 1 =? i then
              SplitHostPort_tail hostport
                (string_take (end_ - 1) (string_drop 1 hostport)) i 1 (end_ + 1)
            else if Ascii.eqb (byte_at hostport (end_ + 1)) ":"%char
            then addrErr tooManyColons
            else addrErr missingPort
        end
      else
        let host := string_take i hostport in
        if bool_decide (is_Some (strings.IndexByte host ":"%char))
        then addrErr tooManyColons
        else SplitHostPort_tail hostport host i 0 0
  end.

End net.

(** ** [url.URL] *)

Record Userinfo : Type := mkUserinfo {
  username : string;
  password : string;
  passwordSet : bool;
}.

Record URL : Type := mkURL {
  Scheme : string;
  Opaque : string;
  User : option Userinfo;
  Host : string;
  Path : string;
  RawPath : string;
  OmitHost : bool;
  ForceQuery : bool;
  RawQuery : string;
  Fragment : string;
  RawFragment : string;
}.

(** The assignment [u.Scheme = s]. *)
Definition set_Scheme (s : string) (u : URL) : URL :=
  {| Scheme := s; Opaque := Opaque u; User := User u; Host := Host u;
     Path := Path u; RawPath := RawPath u; OmitHost := OmitHost u;
     ForceQuery := ForceQuery u; RawQuery := RawQuery u;
     Fragment := Fragment u; RawFragment := RawFragment u |}.

(** ** The rest of the Go library, as an interface

    [url.Parse], [URL.String], the regular expression compiler and
    matcher, and the Unicode-aware trimming [strings.TrimSpace] falls back
    to, are taken as given: every statement below holds for all of them. *)

Definition error : Type := string.

Inductive result (A : Type) : Type :=
| Ok (a : A)
| Err (err : error).
Arguments Ok {A} a.
Arguments Err {A} err.

Class GoStd : Type := {
  (** [*regexp.Regexp] *)
  Regexp : Type;
  (** [url.Parse(rawURL)] *)
  url_Parse : string → result URL;
  (** [u.String()]; it reads [u] and does not write to it *)
  URL_String : URL → string;
  (** [regexp.Compile(expr)] *)
  regexp_Compile : string → result Regexp;
  (** [re.MatchString(s)] *)
  Regexp_MatchString : Regexp → string → bool;
  (** [strings.TrimFunc(s, unicode.IsSpace)] *)
  TrimFunc_IsSpace : string → string;
  (** [strings.TrimRightFunc(s, unicode.IsSpace)] *)
  TrimRightFunc_IsSpace : string → string;
}.

(** ** The log, and the monad [match] runs in *)

Definition M (A : Type) : Type := list string → A * list string.

Definition ret {A} (a : A) : M A := λ log, (a, log).

Definition bind {A B} (m : M A) (f : A → M B) : M B :=
  λ log, let '(a, log') := m log in f a log'.

Notation "'let*' x ':=' m 'in' k" := (bind m (λ x, k))
  (at level 10, x pattern, m at level 100, k at level 200, only parsing).

(** [log.Error(format, args...)], with the message already formatted. *)
Definition log_Error (msg : string) : M unit :=
  λ log, (tt, log ++ [msg]).

(** ** Rules *)

Inductive gfwListRule : Type :=
| hostWildcardRule (pattern : string)
| urlWildcardRule (pattern : string) (prefixMatch : bool)
| regexRule (pattern : string)
| whiteListRule (r : gfwListRule).

(** The type assertion of [rule] to a pointer to [whiteListRule]. *)
Definition isWhiteListRule (rule : gfwListRule) : bool :=
  match rule with
  | whiteListRule _ => true
  | _ => false
  end.

Record GFWList : Type := mkGFWList {
  fetchURL : string;
  ruleMap : gmap string gfwListRule;
  ruleList : list gfwListRule;
}.

Section Engine.
Context `{GoStd}.

(** [utf8.RuneSelf <= c] *)
Definition isNonASCII (c : ascii) : bool :=
  match c with
  | Ascii _ _ _ _ _ _ _ b7 => b7
  end.

(** The second loop of [strings.TrimSpace], on [s[start:]] read from its
    end: [r] is what is left of it, last byte first. *)
Fixpoint TrimSpace_stop (r : string) : string :=
  match r with
  | EmptyString => EmptyString
  | String c r' =>
      if isNonASCII c then TrimRightFunc_IsSpace (String.rev r)
      else if Ascii.is_space c then TrimSpace_stop r'
      else String.rev r
  end.

(** [strings.TrimSpace(s)]: the first loop, then the second. *)
Fixpoint TrimSpace (s : string) : string :=
  match s with
  | EmptyString => EmptyString
  | String c s' =>
      if isNonASCII c then TrimFunc_IsSpace s
      else if Ascii.is_space c then TrimSpace s'
      else TrimSpace_stop (String.rev s)
  end.

(** [regexp.MatchString(pattern, s)]: compile, then match. *)
Definition regexp_MatchString (pattern s : string) : bool * option error :=
  match regexp_Compile pattern with
  | Err err => (false, Some err)
  | Ok re => (Regexp_MatchString re s, None)
  end.

(** The first statement of the two matchers that read the whole URL:
    [if len(u.Scheme) == 0 { u.Scheme = "https" }]. *)
Definition defaultScheme (u : URL) : URL :=
  if String.length (Scheme u) =? 0 then set_Scheme "https" u else u.

(** [match]: the result, and the URL left behind the pointer. *)
Fixpoint match_ (r : gfwListRule) (u : URL) : M (bool * URL) :=
  match r with
  | hostWildcardRule pattern =>
      if strings.Contains (Host u) pattern
      then ret (true, u)
      else ret (false, u)
  | urlWildcardRule pattern prefixMatch =>
      let u := defaultScheme u in
      if prefixMatch
      then ret (strings.HasPrefix (URL_String u) pattern, u)
      else ret (strings.Contains (URL_String u) pattern, u)
  | regexRule pattern =>
      let u := defaultScheme u in
      let '(matched, err) := regexp_MatchString pattern (URL_String u) in
      let* _ := match err with
                | Some e =>
                    log_Error ("Invalid regex pattern: " +:+ pattern
                               +:+ " width reason: " +:+ e)
                | None => ret tt
                end in
      ret (matched, u)
  | whiteListRule r => match_ r u
  end.

(** *** [fastMatchDomain] *)

(** Lines 112-117: the host without its port. *)
Definition hostDomain (u : URL) : string :=
  let domain := Host u in
  if strings.Contains domain ":"
  then (net.SplitHostPort domain).1.1
  else domain.

(** [ss[i]], read where the code has checked the length of [ss]. *)
Definition at_ (ss : list string) (i : nat) : string := default "" (ss !! i).

(** Lines 121-127: the root domain looked up after the miss. *)
Definition rootDomainOf (domain : string) : string :=
  let rootDomain := domain in
  let ss := strings.Split domain "."%char in
  if 2 <? length ss then
    let rootDomain := at_ ss (length ss - 2) +:+ "." +:+ at_ ss (length ss - 1) in
    if (String.length (at_ ss (length ss - 2)) <? 4) && (3 <=? length ss)
    then at_ ss (length ss - 3) +:+ "." +:+ rootDomain
    else rootDomain
  else rootDomain.

(** Lines 119-129: [rule, exist]. *)
Definition fastLookup (gfw : GFWList) (u : URL) : option gfwListRule :=
  let domain := hostDomain u in
  match ruleMap gfw !! domain with
  | Some rule => Some rule
  | None => ruleMap gfw !! rootDomainOf domain
  end.

(** [(matchResult, exist)], and the URL after the call. *)
Definition fastMatchDomain (gfw : GFWList) (u : URL) : M (bool * bool * URL) :=
  match fastLookup gfw u with
  | Some rule =>
      let* (matched, u) := match_ rule u in
      if isWhiteListRule rule
      then ret (negb matched, true, u)
      else ret (matched, true, u)
  | None => ret (false, false, u)
  end.

(** *** [IsBlockedByGFW] *)

(** Lines 154-162: the loop over [gfw.ruleList] and the final
    [return false]. *)
Fixpoint scanRuleList (rules : list gfwListRule) (u : URL) : M bool :=
  match rules with
  | [] => ret false
  | rule :: rest =>
      let* (matched, u) := match_ rule u in
      if matched
      then if isWhiteListRule rule then ret false else ret true
      else scanRuleList rest u
  end.

Definition IsBlockedByGFW (gfw : GFWList) (host : string) : M bool :=
  match url_Parse host with
  | Err _ => ret false
  | Ok u =>
      let* (fastMatchResult, exist_, u) := fastMatchDomain gfw u in
      if exist_ then ret fastMatchResult
      else scanRuleList (ruleList gfw) u
  end.

(** *** [fetchGFWList]: the loop over the decoded list

    The model starts where the lines are read: [lines] is what the
    successive calls of [reader.ReadLine] return before [io.EOF]. *)

(** Lines 209-242 for one line that is not skipped: the rule, whether it
    is for the map ([fastMatch]), and [str] as it is when the rule is
    stored. *)
Definition buildRule (str : string) : outcome (gfwListRule * bool * string) :=
  let isWhileListRule := strings.HasPrefix str "@@" in
  let! str := (if isWhileListRule then slice_from str 2 else Done str) in
  let! (rule, fastMatch, str) :=
    (if strings.HasPrefix str "/" && strings.HasSuffix str "/" then
       let! str := slice str 1 (String.length str - 1) in
       Done (regexRule str, false, str)
     else if strings.HasPrefix str "||" then
       let! str := slice_from str 2 in
       Done (hostWildcardRule str, true, str)
     else if strings.HasPrefix str "|" then
       let! pattern := slice_from str 1 in
       Done (urlWildcardRule pattern true, false, str)
     else if negb (strings.Contains str "/") then
       let rule := hostWildcardRule str in
       let! str := (if strings.HasPrefix str "." then slice_from str 1
                    else Done str) in
       Done (rule, true, str)
     else Done (urlWildcardRule str false, false, str)) in
  let rule := if isWhileListRule then whiteListRule rule else rule in
  Done (rule, fastMatch, str).

(** Line 205: the lines the loop passes over. *)
Definition isSkipped (str : string) : bool :=
  (String.length str =? 0)
  || strings.HasPrefix str "!" || strings.HasPrefix str "[".

(** [gfwList.ruleMap[str] = rule] and
    [gfwList.ruleList = append(gfwList.ruleList, rule)]. *)
Definition storeRule (gfwList : GFWList) (rule : gfwListRule)
    (fastMatch : bool) (str : string) : GFWList :=
  if fastMatch
  then {| fetchURL := fetchURL gfwList;
          ruleMap := <[str := rule]> (ruleMap gfwList);
          ruleList := ruleList gfwList |}
  else {| fetchURL := fetchURL gfwList;
          ruleMap := ruleMap gfwList;
          ruleList := ruleList gfwList ++ [rule] |}.

(** One turn of the loop, lines 202-247. *)
Definition fetchLine (gfwList : GFWList) (line : string) : outcome GFWList :=
  let str := TrimSpace line in
  if isSkipped str then Done gfwList
  else
    let! (rule, fastMatch, str) := buildRule str in
    Done (storeRule gfwList rule fastMatch str).

Fixpoint fetchLines (gfwList : GFWList) (lines : list string) : outcome GFWList :=
  match lines with
  | [] => Done gfwList
  | line :: rest =>
      let! gfwList := fetchLine gfwList line in
      fetchLines gfwList rest
  end.

(** Lines 191-250. *)
Definition fetchGFWList (lines : list string) : outcome GFWList :=
  fetchLines {| fetchURL := ""; ruleMap := ∅; ruleList := [] |} lines.

End Engine.

(** ** A reference instance of the library interface

    The engine is run on concrete inputs with this instance.  It covers a
    fragment of the Go library and is not meant to agree with it outside:
    URL texts made of the bytes in [plainByte] (no percent-escapes, no
    userinfo, no bracketed IP literal), whose parts [url.Parse] and
    [URL.String] neither unescape nor escape; and regular expressions
    made of literals, [.], the classes [\d \w \s], escaped punctuation,
    groups, [|] and the operators [* + ?], matched byte by byte.  *)

Module Ref.

Definition between (lo hi c : ascii) : bool :=
  Ascii.leb lo c && Ascii.leb c hi.

Definition isLetter (c : ascii) : bool :=
  between "a" "z" c || between "A" "Z" c.
Definition isDigit (c : ascii) : bool := between "0" "9" c.

Definition oneOf (set : string) (c : ascii) : bool :=
  bool_decide (is_Some (strings.IndexByte set c)).

Fixpoint allBytes (p : ascii → bool) (s : string) : bool :=
  match s with
  | EmptyString => true
  | String c s' => p c && allBytes p s'
  end.

(** *** [net/url] *)

Definition plainByte (c : ascii) : bool :=
  isLetter c || isDigit c || oneOf "-_.~$&+,/:;=?#" c.

(** [c < ' ' || c == 0x7f] *)
Definition isCTLByte (c : ascii) : bool :=
  (Ascii.ltb c " " || Ascii.eqb c "127")%char.

Definition toLowerByte (c : ascii) : ascii :=
  if between "A" "Z" c
  then Ascii.ascii_of_nat (Ascii.nat_of_ascii c + 32)
  else c.

Fixpoint ToLower (s : string) : string :=
  match s with
  | EmptyString => EmptyString
  | String c s' => String (toLowerByte c) (ToLower s')
  end.

(** [strings.Cut(s, sep)] for a separator of one byte. *)
Definition Cut (s : string) (sep : ascii) : string * string * bool :=
  match strings.IndexByte s sep with
  | Some i => (string_take i s, string_drop (i + 1) s, true)
  | None => (s, "", false)
  end.

Fixpoint Count (s : string) (c : ascii) : nat :=
  match s with
  | EmptyString => 0
  | String d s' => (if Ascii.eqb d c then 1 else 0) + Count s' c
  end.

(** [getScheme(rawURL)]; [i] is the index of the byte of [s] at hand. *)
Fixpoint getScheme_go (rawURL : string) (i : nat) (s : string)
  : result (string * string) :=
  match s with
  | EmptyString => Ok ("", rawURL)
  | String c s' =>
      if isLetter c then getScheme_go rawURL (S i) s'
      else if isDigit c || oneOf "+-." c then
        if i =? 0 then Ok ("", rawURL) else getScheme_go rawURL (S i) s'
      else if Ascii.eqb c ":" then
        if i =? 0 then Err "missing protocol scheme"
        else Ok (string_take i rawURL, s')
      else Ok ("", rawURL)
  end.

Definition getScheme (rawURL : string) : result (string * string) :=
  getScheme_go rawURL 0 rawURL.

(** [validOptionalPort(port)] *)
Definition validOptionalPort (port : string) : bool :=
  match port with
  | EmptyString => true
  | String c digits => Ascii.eqb c ":" && allBytes isDigit digits
  end.

(** [parseHost(host)], without a leading '['. *)
Definition parseHost (host : string) : result string :=
  match strings.LastIndexByte host ":" with
  | Some i =>
      if validOptionalPort (string_drop i host) then Ok host
      else Err ("invalid port after host")
  | None => Ok host
  end.

Definition emptyURL : URL :=
  mkURL "" "" None "" "" "" false false "" "" "".

(** [parse(rawURL, false)] *)
Definition parse (rawURL : string) : result URL :=
  match getScheme rawURL with
  | Err e => Err e
  | Ok (scheme, rest) =>
      let scheme := ToLower scheme in
      let '(rest, rawQuery, forceQuery) :=
        if strings.HasSuffix rest "?" && (Count rest "?" =? 1)
        then (string_take (String.length rest - 1) rest, "", true)
        else let '(r, q, _) := Cut rest "?" in (r, q, false) in
      if negb (strings.HasPrefix rest "/") && negb (String.eqb scheme "") then
        Ok (mkURL scheme rest None "" "" "" false forceQuery rawQuery "" "")
      else if negb (strings.HasPrefix rest "/")
              && strings.Contains (Cut rest "/").1.1 ":" then
        Err "first path segment in URL cannot contain colon"
      else if (negb (String.eqb scheme "") || negb (strings.HasPrefix rest "///"))
              && strings.HasPrefix rest "//" then
        let authority := string_drop 2 rest in
        let '(authority, rest) :=
          match strings.IndexByte authority "/" with
          | Some i => (string_take i authority, string_drop i authority)
          | None => (authority, "")
          end in
        match parseHost authority with
        | Err e => Err e
        | Ok host =>
            Ok (mkURL scheme "" None host rest "" false forceQuery rawQuery "" "")
        end
      else if negb (String.eqb scheme "") && strings.HasPrefix rest "/" then
        Ok (mkURL scheme "" None "" rest "" true forceQuery rawQuery "" "")
      else
        Ok (mkURL scheme "" None "" rest "" false forceQuery rawQuery "" "")
  end.

(** [url.Parse(rawURL)] *)
Definition Parse (rawURL : string) : result URL :=
  let '(u, frag, _) := Cut rawURL "#" in
  if negb (allBytes (λ c, negb (isCTLByte c)) u)
  then Err "net/url: invalid control character in URL"
  else if negb (allBytes plainByte rawURL) || strings.Contains frag "#"
  then Err "reference instance: a byte outside the fragment"
  else
    match parse u with
    | Err e => Err e
    | Ok url =>
        Ok (mkURL (Scheme url) (Opaque url) (User url) (Host url) (Path url)
              (RawPath url) (OmitHost url) (ForceQuery url) (RawQuery url)
              frag "")
    end.

(** [u.String()] *)
Definition String_ (u : URL) : string :=
  let scheme := if String.eqb (Scheme u) "" then "" else Scheme u +:+ ":" in
  let body :=
    if negb (String.eqb (Opaque u) "") then Opaque u
    else
      let authority :=
        if negb (String.eqb (Scheme u) "") || negb (String.eqb (Host u) "")
           || bool_decide (is_Some (User u)) then
          if OmitHost u && String.eqb (Host u) ""
             && negb (bool_decide (is_Some (User u)))
          then ""
          else
            (if negb (String.eqb (Host u) "") || negb (String.eqb (Path u) "")
                || bool_decide (is_Some (User u))
             then "//" else "")
            +:+ match User u with
                | Some ui =>
                    username ui
                    +:+ (if passwordSet ui then ":" +:+ password ui else "")
                    +:+ "@"
                | None => ""
                end
            +:+ Host u
        else "" in
      let path := Path u in
      let slash :=
        if negb (String.eqb path "") && negb (strings.HasPrefix path "/")
           && negb (String.eqb (Host u) "")
        then "/" else "" in
      let dot :=
        if String.eqb (scheme +:+ authority +:+ slash) ""
           && strings.Contains (Cut path "/").1.1 ":"
        then "./" else "" in
      authority +:+ slash +:+ dot +:+ path in
  scheme +:+ body
  +:+ (if ForceQuery u || negb (String.eqb (RawQuery u) "")
       then "?" +:+ RawQuery u else "")
  +:+ (if negb (String.eqb (Fragment u) "") then "#" +:+ Fragment u else "").

(** *** [regexp] *)

Inductive re : Type :=
| ReFail
| ReEmpty
| ReSet (p : ascii → bool)
| ReCat (r1 r2 : re)
| ReAlt (r1 r2 : re)
| ReStar (r : re).

Fixpoint nullable (r : re) : bool :=
  match r with
  | ReFail | ReSet _ => false
  | ReEmpty | ReStar _ => true
  | ReCat r1 r2 => nullable r1 && nullable r2
  | ReAlt r1 r2 => nullable r1 || nullable r2
  end.

(** What is left of [r] to match after the byte [c]. *)
Fixpoint deriv (c : ascii) (r : re) : re :=
  match r with
  | ReFail | ReEmpty => ReFail
  | ReSet p => if p c then ReEmpty else ReFail
  | ReCat r1 r2 =>
      if nullable r1
      then ReAlt (ReCat (deriv c r1) r2) (deriv c r2)
      else ReCat (deriv c r1) r2
  | ReAlt r1 r2 => ReAlt (deriv c r1) (deriv c r2)
  | ReStar r1 => ReCat (deriv c r1) (ReStar r1)
  end.

(** Some prefix of [s] matches [r]. *)
Fixpoint matchPrefix (r : re) (s : string) : bool :=
  nullable r
  || match s with
     | EmptyString => false
     | String c s' => matchPrefix (deriv c r) s'
     end.

(** [re.MatchString(s)]: some substring of [s] matches. *)
Fixpoint MatchString (r : re) (s : string) : bool :=
  matchPrefix r s
  || match s with
     | EmptyString => false
     | String _ s' => MatchString r s'
     end.

(** The parser keeps, as Go's does, a stack of the groups that are
    open; a frame holds the alternatives already closed by a [|] and the
    items of the one being read, both last first. *)
Record frame : Type := mkFrame { alts : list re; items : list re }.

Inductive repState : Type := NoRep | Rep | RepLazy.

Definition catOf (items : list re) : re :=
  foldr ReCat ReEmpty (rev items).

Definition closeFrame (f : frame) : re :=
  foldr ReAlt ReFail (rev (catOf (items f) :: alts f)).

Definition pushItem (r : re) (f : frame) : frame :=
  mkFrame (alts f) (r :: items f).

Definition isWordByte (c : ascii) : bool :=
  isLetter c || isDigit c || Ascii.eqb c "_".

(** The item an escape sequence [\c] stands for. *)
Definition escapeItem (c : ascii) : result re :=
  if Ascii.eqb c "d" then Ok (ReSet isDigit)
  else if Ascii.eqb c "D" then Ok (ReSet (λ b, negb (isDigit b)))
  else if Ascii.eqb c "w" then Ok (ReSet isWordByte)
  else if Ascii.eqb c "W" then Ok (ReSet (λ b, negb (isWordByte b)))
  else if Ascii.eqb c "s" then Ok (ReSet (oneOf (String "009" (String "010" (String "012" (String "013" " "))))))
  else if negb (isLetter c || isDigit c) && negb (isNonASCII c)
  then Ok (ReSet (Ascii.eqb c))
  else Err "reference instance: an escape outside the fragment".

Definition repeatItem (op : ascii) (r : re) : re :=
  if Ascii.eqb op "*" then ReStar r
  else if Ascii.eqb op "+" then ReCat r (ReStar r)
  else ReAlt r ReEmpty.

Fixpoint Compile_go (stack : list frame) (cur : frame) (st : repState)
    (esc : bool) (s : string) : result re :=
  match s with
  | EmptyString =>
      if esc then Err "trailing backslash at end of expression"
      else match stack with
           | [] => Ok (closeFrame cur)
           | _ :: _ => Err "missing closing )"
           end
  | String c s' =>
      if esc then
        match escapeItem c with
        | Ok r => Compile_go stack (pushItem r cur) NoRep false s'
        | Err e => Err e
        end
      else if Ascii.eqb c "\" then Compile_go stack cur NoRep true s'
      else if Ascii.eqb c "(" then
        if strings.HasPrefix s' "?"
        then Err "reference instance: a group flag is outside the fragment"
        else Compile_go (cur :: stack) (mkFrame [] []) NoRep false s'
      else if Ascii.eqb c ")" then
        match stack with
        | [] => Err "unexpected )"
        | parent :: stack' =>
            Compile_go stack' (pushItem (closeFrame cur) parent) NoRep false s'
        end
      else if Ascii.eqb c "|" then
        Compile_go stack (mkFrame (catOf (items cur) :: alts cur) []) NoRep false s'
      else if oneOf "*+?" c then
        match st with
        | NoRep =>
            match items cur with
            | [] => Err "missing argument to repetition operator"
            | r :: rest =>
                Compile_go stack (mkFrame (alts cur) (repeatItem c r :: rest))
                  Rep false s'
            end
        | Rep =>
            if Ascii.eqb c "?" then Compile_go stack cur RepLazy false s'
            else Err "invalid nested repetition operator"
        | RepLazy => Err "invalid nested repetition operator"
        end
      else if oneOf "[{^$" c
      then Err "reference instance: an operator outside the fragment"
      else if Ascii.eqb c "."
      then Compile_go stack (pushItem (ReSet (λ b, negb (Ascii.eqb b "010"))) cur)
             NoRep false s'
      else Compile_go stack (pushItem (ReSet (Ascii.eqb c)) cur) NoRep false s'
  end.

(** [regexp.Compile(expr)] *)
Definition Compile (expr : string) : result re :=
  Compile_go [] (mkFrame [] []) NoRep false expr.

(** *** Trimming of Unicode white space *)

(** The UTF-8 encodings of the runes of [unicode.IsSpace] above U+007F:
    U+0085, U+00A0; U+1680, U+2000 to U+200A, U+2028, U+2029, U+202F,
    U+205F, U+3000. *)
Definition isSpace2 (c d : nat) : bool :=
  (c =? 194) && ((d =? 133) || (d =? 160)).

Definition isSpace3 (c d e : nat) : bool :=
  ((c =? 225) && (d =? 154) && (e =? 128))
  || ((c =? 226) && (d =? 128)
      && (((128 <=? e) && (e <=? 138)) || (e =? 168) || (e =? 169) || (e =? 175)))
  || ((c =? 226) && (d =? 129) && (e =? 159))
  || ((c =? 227) && (d =? 128) && (e =? 128)).

(** The length of the white space rune [s] starts with, 0 if none. *)
Definition spaceWidth (s : string) : nat :=
  match s with
  | String c (String d (String e _)) =>
      if Ascii.is_space c then 1
      else if isSpace2 (nat_of_ascii c) (nat_of_ascii d) then 2
      else if isSpace3 (nat_of_ascii c) (nat_of_ascii d) (nat_of_ascii e) then 3
      else 0
  | String c (String d EmptyString) =>
      if Ascii.is_space c then 1
      else if isSpace2 (nat_of_ascii c) (nat_of_ascii d) then 2
      else 0
  | String c EmptyString => if Ascii.is_space c then 1 else 0
  | EmptyString => 0
  end.

(** The same for the rune [s] ends with; [r] is [s] last byte first. *)
Definition spaceWidth_rev (r : string) : nat :=
  match r with
  | String e (String d (String c _)) =>
      if Ascii.is_space e then 1
      else if isSpace2 (nat_of_ascii d) (nat_of_ascii e) then 2
      else if isSpace3 (nat_of_ascii c) (nat_of_ascii d) (nat_of_ascii e) then 3
      else 0
  | String e (String d EmptyString) =>
      if Ascii.is_space e then 1
      else if isSpace2 (nat_of_ascii d) (nat_of_ascii e) then 2
      else 0
  | String e EmptyString => if Ascii.is_space e then 1 else 0
  | EmptyString => 0
  end.

Fixpoint trim_go (width : string → nat) (fuel : nat) (s : string) : string :=
  match fuel with
  | 0 => s
  | S fuel' =>
      match width s with
      | 0 => s
      | n => trim_go width fuel' (string_drop n s)
      end
  end.

Definition TrimLeft_IsSpace (s : string) : string :=
  trim_go spaceWidth (String.length s) s.

Definition TrimRight_IsSpace (s : string) : string :=
  String.rev (trim_go spaceWidth_rev (String.length s) (String.rev s)).

Definition Trim_IsSpace (s : string) : string :=
  TrimRight_IsSpace (TrimLeft_IsSpace s).

Definition std : GoStd :=
  {| Regexp := re;
     url_Parse := Parse;
     URL_String := String_;
     regexp_Compile := Compile;
     Regexp_MatchString := MatchString;
     TrimFunc_IsSpace := Trim_IsSpace;
     TrimRightFunc_IsSpace := TrimRight_IsSpace |}.

End Ref.

(** ** The notions the statements are written with *)

(** Whether [match] runs the scheme default on its argument. *)
Fixpoint readsWholeURL (r : gfwListRule) : bool :=
  match r with
  | hostWildcardRule _ => false
  | urlWildcardRule _ _ | regexRule _ => true
  | whiteListRule r' => readsWholeURL r'
  end.

Section Notions.
Context `{GoStd}.

(** The boolean [match] returns. *)
Definition matches (r : gfwListRule) (u : URL) : bool := (match_ r u []).1.1.

(** The messages [match] logs. *)
Definition logged (r : gfwListRule) (u : URL) : list string := (match_ r u []).2.

(** The first rule of [rules], in list order, whose [match] is true. *)
Definition firstMatch (rules : list gfwListRule) (u : URL) : option gfwListRule :=
  List.find (λ r, matches r u) rules.

(** What the rules of the fallback list log until one matches. *)
Fixpoint scanLogged (rules : list gfwListRule) (u : URL) : list string :=
  match rules with
  | [] => []
  | rule :: rest =>
      logged rule u ++ (if matches rule u then [] else scanLogged rest u)
  end.

(** The rule a line adds to [ruleList], if it adds one. *)
Definition slowRuleOf (line : string) : option gfwListRule :=
  let str := TrimSpace line in
  if isSkipped str then None
  else match buildRule str with
       | Done (rule, false, _) => Some rule
       | _ => None
       end.

End Notions.

(** Two URLs that differ at most in the scheme. *)
Definition sameButScheme (u u' : URL) : Prop :=
  Opaque u' = Opaque u ∧ User u' = User u ∧ Host u' = Host u
  ∧ Path u' = Path u ∧ RawPath u' = RawPath u ∧ OmitHost u' = OmitHost u
  ∧ ForceQuery u' = ForceQuery u ∧ RawQuery u' = RawQuery u
  ∧ Fragment u' = Fragment u ∧ RawFragment u' = RawFragment u.

(** The last [n] labels of a domain. *)
Definition lastLabels (n : nat) (labels : list string) : list string :=
  drop (length labels - n) labels.

(** The candidate root as the specification words it: split the domain on
    '.'; with more than two labels the candidate is the last two joined by
    '.'; when the second-to-last label is shorter than 4 and there are at
    least 3 labels it is the last three instead; a domain of at most two
    labels is its own candidate. *)
Definition candidateRoot_spec (domain : string) : string :=
  let labels := strings.Split domain "." in
  let secondToLast := default "" (rev labels !! 1) in
  if (String.length secondToLast <? 4) && (3 <=? length labels)
  then strings.Join (lastLabels 3 labels) "."
  else if 2 <? length labels
  then strings.Join (lastLabels 2 labels) "."
  else domain.

(** The text of a line after the whitelist mark. *)
Definition ruleBody (str : string) : string :=
  if strings.HasPrefix str "@@" then string_drop 2 str else str.

(** The wrapping of line 240-242. *)
Definition wrapFor (str : string) (rule : gfwListRule) : gfwListRule :=
  if strings.HasPrefix str "@@" then whiteListRule rule else rule.

(** A rule without its whitelist wrapper. *)
Definition unwrap (rule : gfwListRule) : gfwListRule :=
  match rule with
  | whiteListRule r => r
  | _ => rule
  end.

(** The five forms of a line that is not skipped. *)
Inductive lineForm (body : string) : gfwListRule → bool → string → Prop :=
| form_regex interior :
    strings.HasPrefix body "/" = true → strings.HasSuffix body "/" = true →
    slice body 1 (String.length body - 1) = Done interior →
    lineForm body (regexRule interior) false interior
| form_domain_anchor :
    strings.HasPrefix body "/" && strings.HasSuffix body "/" = false →
    strings.HasPrefix body "||" = true →
    lineForm body (hostWildcardRule (string_drop 2 body)) true (string_drop 2 body)
| form_url_anchor :
    strings.HasPrefix body "/" && strings.HasSuffix body "/" = false →
    strings.HasPrefix body "||" = false → strings.HasPrefix body "|" = true →
    lineForm body (urlWildcardRule (string_drop 1 body) true) false body
| form_domain :
    strings.HasPrefix body "|" = false → strings.Contains body "/" = false →
    lineForm body (hostWildcardRule body) true
      (if strings.HasPrefix body "." then string_drop 1 body else body)
| form_substring :
    strings.HasPrefix body "/" && strings.HasSuffix body "/" = false →
    strings.HasPrefix body "|" = false → strings.Contains body "/" = true →
    lineForm body (urlWildcardRule body false) false body.

(** ** The notions of the further statements *)

(** Lines 103-109, the mutex apart: [gfw] takes the map and the list of
    [target] and keeps its own [fetchURL]. *)
Definition setFrom (gfw target : GFWList) : GFWList :=
  {| fetchURL := fetchURL gfw;
     ruleMap := ruleMap target;
     ruleList := ruleList target |}.

(** A text without ':', '[' and ']'. *)
Definition noColonNoBracket (s : string) : Prop :=
  strings.IndexByte s ":" = None
  ∧ strings.IndexByte s "[" = None
  ∧ strings.IndexByte s "]" = None.

Section MoreNotions.
Context `{GoStd}.

(** The entry a line puts into [ruleMap], if it puts one. *)
Definition fastEntryOf (line : string) : option (string * gfwListRule) :=
  let str := TrimSpace line in
  if isSkipped str then None
  else match buildRule str with
       | Done (rule, true, key) => Some (key, rule)
       | _ => None
       end.

(** The lines on which the loop panics. *)
Definition linePanics (line : string) : bool :=
  negb (isSkipped (TrimSpace line))
  && String.eqb (ruleBody (TrimSpace line)) "/".

(** Every regular expression of the rule compiles. *)
Fixpoint compiles (r : gfwListRule) : bool :=
  match r with
  | regexRule pattern =>
      match regexp_Compile pattern with
      | Ok _ => true
      | Err _ => false
      end
  | whiteListRule r' => compiles r'
  | _ => true
  end.

End MoreNotions.

(** ** Two sample lists *)

Definition sampleLines : list string :=
  [ "[AutoProxy 0.2.9]";
    "! a comment";
    "";
    "||example.com";
    "@@||safe.example.com";
    "||bbc.co.uk";
    "  .dotted.org  ";
    "|http://prefix.test/";
    "plain.net/path";
    "||anchored.net/path" ].

Definition sampleGFWList : GFWList :=
  match fetchGFWList (H := Ref.std) sampleLines with
  | Done gfwList => gfwList
  | Panic _ => mkGFWList "" ∅ []
  end.

Definition regexLines : list string :=
  [ "@@/safe\.example\.com/"; "/example\.com/"; "/(/" ].

Definition regexGFWList : GFWList :=
  match fetchGFWList (H := Ref.std) regexLines with
  | Done gfwList => gfwList
  | Panic _ => mkGFWList "" ∅ []
  end.

Definition hostURL (host : string) : URL :=
  mkURL "http" "" None host "" "" false false "" "" "".

(** * Properties *)

(** ** What [match] does to the URL and to the log *)

Section MatchFacts.
Context `{GoStd}.

Lemma defaultScheme_idem u : defaultScheme (defaultScheme u) = defaultScheme u.
Proof.
  unfold defaultScheme.
  destruct (String.length (Scheme u) =? 0) eqn:E; simpl; [done|by rewrite E].
Qed.

Lemma defaultScheme_Host u : Host (defaultScheme u) = Host u.
Proof. unfold defaultScheme. by destruct (_ =? _). Qed.

(** [match] appends to the log and reads nothing from it; the URL it
    leaves is its argument, with the scheme default applied when the rule
    reads the whole URL. *)
Lemma match_run r u log :
  match_ r u log =
    (matches r u, if readsWholeURL r then defaultScheme u else u,
     log ++ logged r u).
Proof.
  unfold matches, logged.
  induction r as [p|p pm|p|r IH]; simpl.
  - destruct (strings.Contains _ _); unfold ret; simpl; by rewrite app_nil_r.
  - destruct pm; unfold ret; simpl; by rewrite app_nil_r.
  - destruct (regexp_MatchString _ _) as [m [e|]];
      unfold bind, ret, log_Error; simpl; [done|by rewrite app_nil_r].
  - exact IH.
Qed.

(** The scheme default does not change what any rule answers or logs. *)
Lemma match_defaultScheme r u :
  matches r (defaultScheme u) = matches r u
  ∧ logged r (defaultScheme u) = logged r u.
Proof.
  unfold matches, logged.
  induction r as [p|p pm|p|r IH]; simpl.
  - rewrite defaultScheme_Host. by destruct (strings.Contains _ _).
  - rewrite defaultScheme_idem. by destruct pm.
  - by rewrite defaultScheme_idem.
  - exact IH.
Qed.

Lemma matches_after r r' u :
  matches r (if readsWholeURL r' then defaultScheme u else u) = matches r u.
Proof. destruct (readsWholeURL r'); [apply match_defaultScheme|done]. Qed.

Lemma isWhiteListRule_matches r u :
  matches (whiteListRule r) u = matches r u.
Proof. done. Qed.

End MatchFacts.

(** ** The matching engine *)

Section EngineFacts.
Context `{GoStd}.

Lemma firstMatch_after rules r' u :
  firstMatch rules (if readsWholeURL r' then defaultScheme u else u)
  = firstMatch rules u.
Proof.
  unfold firstMatch. induction rules as [|r rules IH]; simpl; [done|].
  by rewrite matches_after, IH.
Qed.

Lemma scanLogged_after rules r' u :
  scanLogged rules (if readsWholeURL r' then defaultScheme u else u)
  = scanLogged rules u.
Proof.
  induction rules as [|r rules IH]; simpl; [done|].
  rewrite matches_after, IH. f_equal.
  destruct (readsWholeURL r'); [apply match_defaultScheme|done].
Qed.

(** The loop answers by the first rule that matches, and by [false]
    when none does. *)
Lemma scanRuleList_run rules u log :
  scanRuleList rules u log =
    (match firstMatch rules u with
     | Some rule => negb (isWhiteListRule rule)
     | None => false
     end,
     log ++ scanLogged rules u).
Proof.
  revert u log. induction rules as [|r rules IH]; intros u log; simpl.
  - unfold ret. by rewrite app_nil_r.
  - unfold bind. rewrite match_run. unfold firstMatch. simpl.
    destruct (matches r u) eqn:Em.
    + rewrite app_nil_r. by destruct (isWhiteListRule r).
    + rewrite IH, firstMatch_after, scanLogged_after.
      unfold firstMatch. by rewrite app_assoc.
Qed.

Lemma fastLookup_cases gfw u rule :
  fastLookup gfw u = Some rule ↔
    ruleMap gfw !! hostDomain u = Some rule
    ∨ (ruleMap gfw !! hostDomain u = None
       ∧ ruleMap gfw !! rootDomainOf (hostDomain u) = Some rule).
Proof.
  unfold fastLookup.
  destruct (ruleMap gfw !! hostDomain u); intuition congruence.
Qed.

Lemma fastLookup_miss gfw u :
  fastLookup gfw u = None ↔
    ruleMap gfw !! hostDomain u = None
    ∧ ruleMap gfw !! rootDomainOf (hostDomain u) = None.
Proof.
  unfold fastLookup.
  destruct (ruleMap gfw !! hostDomain u); intuition congruence.
Qed.

Lemma IsBlockedByGFW_hit gfw host u rule log :
  url_Parse host = Ok u →
  fastLookup gfw u = Some rule →
  IsBlockedByGFW gfw host log =
    (if isWhiteListRule rule then negb (matches rule u) else matches rule u,
     log ++ logged rule u).
Proof.
  intros Hu Hr. unfold IsBlockedByGFW, fastMatchDomain. rewrite Hu, Hr.
  unfold bind. rewrite match_run. by destruct (isWhiteListRule rule).
Qed.

Lemma IsBlockedByGFW_miss gfw host u log :
  url_Parse host = Ok u →
  fastLookup gfw u = None →
  IsBlockedByGFW gfw host log = scanRuleList (ruleList gfw) u log.
Proof.
  intros Hu Hr. unfold IsBlockedByGFW, fastMatchDomain. by rewrite Hu, Hr.
Qed.

(** C1.  When the exact-domain lookup, or after its miss the root-domain
    lookup, finds [rule], [IsBlockedByGFW] runs [rule.match] and answers
    with its negation if [rule] is a [whiteListRule] and with its result
    otherwise; nothing of [ruleList] is evaluated: the answer and the log
    are those of that one call, whatever the fallback list holds. *)
Theorem IsBlockedByGFW_fast_path gfw host u rule log :
  url_Parse host = Ok u →
  ruleMap gfw !! hostDomain u = Some rule
  ∨ (ruleMap gfw !! hostDomain u = None
     ∧ ruleMap gfw !! rootDomainOf (hostDomain u) = Some rule) →
  IsBlockedByGFW gfw host log =
    (let '(matched, _, log') := match_ rule u log in
     (if isWhiteListRule rule then negb matched else matched, log'))
  ∧ ∀ rules,
      IsBlockedByGFW (mkGFWList (fetchURL gfw) (ruleMap gfw) rules) host log
      = IsBlockedByGFW gfw host log.
Proof.
  intros Hu Hr%fastLookup_cases. split.
  - rewrite match_run. by apply IsBlockedByGFW_hit.
  - intros rules. rewrite !(IsBlockedByGFW_hit _ host u rule); done.
Qed.

(** C6.  An input [url.Parse] rejects is reported as not blocked: the
    answer is [false], nothing is logged, and no rule is looked at. *)
Theorem IsBlockedByGFW_parse_error gfw host err log :
  url_Parse host = Err err →
  IsBlockedByGFW gfw host log = (false, log).
Proof. intros Hu. unfold IsBlockedByGFW. by rewrite Hu. Qed.

Lemma firstMatch_app_false before r after u :
  matches r u = false →
  firstMatch (before ++ r :: after) u = firstMatch (before ++ after) u.
Proof.
  intros Hr. unfold firstMatch.
  induction before as [|b before IH]; simpl; [by rewrite Hr|].
  by rewrite IH.
Qed.

Lemma firstMatch_app_true before rule after u :
  Forall (λ r, matches r u = false) before →
  matches rule u = true →
  firstMatch (before ++ rule :: after) u = Some rule.
Proof.
  intros Hb Hr. unfold firstMatch.
  induction Hb as [|b before Hbf _ IH]; simpl; [by rewrite Hr|].
  by rewrite Hbf.
Qed.

Lemma firstMatch_none rules u :
  Forall (λ r, matches r u = false) rules → firstMatch rules u = None.
Proof.
  intros Hb. unfold firstMatch.
  induction Hb as [|b rules Hbf _ IH]; simpl; [done|]. by rewrite Hbf.
Qed.

(** C3.  When neither the exact-domain nor the root-domain lookup finds
    a rule, [IsBlockedByGFW] goes through [ruleList] in list order and the
    first rule whose [match] is true decides: not blocked if it is a
    [whiteListRule], blocked otherwise; when no rule matches the answer
    is [false].  ([matches r u] is what [r.match] answers in the loop:
    the scheme default earlier rules leave in the URL changes no
    answer, see [match_defaultScheme].) *)
Theorem IsBlockedByGFW_fallback gfw host u log :
  url_Parse host = Ok u →
  ruleMap gfw !! hostDomain u = None →
  ruleMap gfw !! rootDomainOf (hostDomain u) = None →
  IsBlockedByGFW gfw host log = scanRuleList (ruleList gfw) u log
  ∧ (IsBlockedByGFW gfw host log).1 =
      match firstMatch (ruleList gfw) u with
      | Some rule => negb (isWhiteListRule rule)
      | None => false
      end
  ∧ (∀ before rule after,
       ruleList gfw = before ++ rule :: after →
       Forall (λ r, matches r u = false) before →
       matches rule u = true →
       (IsBlockedByGFW gfw host log).1 = negb (isWhiteListRule rule))
  ∧ (Forall (λ r, matches r u = false) (ruleList gfw) →
     (IsBlockedByGFW gfw host log).1 = false).
Proof.
  intros Hu Hd Hr.
  assert (Hmiss : fastLookup gfw u = None) by by apply fastLookup_miss.
  rewrite (IsBlockedByGFW_miss gfw host u log Hu Hmiss), scanRuleList_run.
  simpl. repeat split.
  - intros before rule after -> Hb Hm. by rewrite (firstMatch_app_true _ _ _ _ Hb Hm).
  - intros Hall. by rewrite (firstMatch_none _ _ Hall).
Qed.

(** C7.  A [regexRule] whose pattern does not compile: [match] logs the
    failure once and returns [false]; it has no way to fail, the error
    ends in the log.  Such a rule in [ruleList] never decides
    [IsBlockedByGFW], which answers as if the rule were not there. *)
Theorem regexRule_match_invalid_pattern pattern err u log :
  regexp_Compile pattern = Err err →
  match_ (regexRule pattern) u log =
    (false, defaultScheme u,
     log ++ ["Invalid regex pattern: " +:+ pattern
             +:+ " width reason: " +:+ err])
  ∧ ∀ gfw host before after,
      ruleList gfw = before ++ regexRule pattern :: after →
      (IsBlockedByGFW gfw host log).1 =
      (IsBlockedByGFW
         (mkGFWList (fetchURL gfw) (ruleMap gfw) (before ++ after)) host log).1.
Proof.
  intros Hc.
  assert (Hm : ∀ v l, match_ (regexRule pattern) v l =
            (false, defaultScheme v,
             l ++ ["Invalid regex pattern: " +:+ pattern
                   +:+ " width reason: " +:+ err])).
  { intros v l. simpl. unfold regexp_MatchString. by rewrite Hc. }
  split; [apply Hm|].
  intros gfw host before after Hl.
  destruct (url_Parse host) as [v|e] eqn:Hu.
  - destruct (fastLookup gfw v) as [rule|] eqn:Hf.
    + rewrite (IsBlockedByGFW_hit gfw host v rule log Hu Hf).
      by rewrite (IsBlockedByGFW_hit _ host v rule log Hu).
    + rewrite (IsBlockedByGFW_miss gfw host v log Hu Hf).
      rewrite (IsBlockedByGFW_miss _ host v log Hu); [|done].
      rewrite !scanRuleList_run, Hl. simpl.
      rewrite firstMatch_app_false; [done|].
      unfold matches. by rewrite Hm.
  - by rewrite !(IsBlockedByGFW_parse_error _ host e).
Qed.

(** C9.  The matchers of [urlWildcardRule] (prefix and substring) and of
    [regexRule] leave behind the URL with the scheme "https" if it was
    empty and the scheme it had otherwise, every other field as it was,
    and it is this URL they turn into a string; the matcher of
    [hostWildcardRule] leaves the URL as it was and answers from
    [u.Host] alone, whatever the scheme. *)
Theorem match_scheme_default u log :
  (∀ pattern prefixMatch,
     match_ (urlWildcardRule pattern prefixMatch) u log =
       ((if prefixMatch
         then strings.HasPrefix (URL_String (defaultScheme u)) pattern
         else strings.Contains (URL_String (defaultScheme u)) pattern),
        defaultScheme u, log))
  ∧ (∀ pattern,
       (match_ (regexRule pattern) u log).1 =
         ((regexp_MatchString pattern (URL_String (defaultScheme u))).1,
          defaultScheme u))
  ∧ Scheme (defaultScheme u)
    = (if bool_decide (Scheme u = "") then "https" else Scheme u)
  ∧ sameButScheme u (defaultScheme u)
  ∧ (∀ pattern,
       match_ (hostWildcardRule pattern) u log =
         (strings.Contains (Host u) pattern, u, log))
  ∧ (∀ pattern scheme,
       (match_ (hostWildcardRule pattern) (set_Scheme scheme u) log).1.1
       = (match_ (hostWildcardRule pattern) u log).1.1).
Proof.
  repeat split.
  - intros pattern []; done.
  - intros pattern. simpl.
    by destruct (regexp_MatchString _ _) as [m [e|]].
  - unfold defaultScheme. destruct u as [[|c sch] ?]; done.
  - unfold defaultScheme. by destruct (_ =? _).
  - unfold defaultScheme. by destruct (_ =? _).
  - unfold defaultScheme. by destruct (_ =? _).
  - unfold defaultScheme. by destruct (_ =? _).
  - unfold defaultScheme. by destruct (_ =? _).
  - unfold defaultScheme. by destruct (_ =? _).
  - unfold defaultScheme. by destruct (_ =? _).
  - unfold defaultScheme. by destruct (_ =? _).
  - unfold defaultScheme. by destruct (_ =? _).
  - unfold defaultScheme. by destruct (_ =? _).
  - intros pattern. simpl. by destruct (strings.Contains _ _).
  - intros pattern scheme. simpl. by destruct (strings.Contains _ _).
Qed.

End EngineFacts.

(** ** The root-domain heuristic *)

Lemma list_last_three {A} (l : list A) :
  3 ≤ length l → ∃ pre a b c, l = pre ++ [a; b; c].
Proof.
  intros Hl.
  destruct l as [|c l _] using rev_ind; [simpl in Hl; lia|].
  destruct l as [|b l _] using rev_ind; [simpl in Hl; lia|].
  destruct l as [|a l _] using rev_ind; [simpl in Hl; lia|].
  exists l, a, b, c. by rewrite <- !app_assoc.
Qed.

Lemma at_last_three (pre : list string) a b c :
  let ss := pre ++ [a; b; c] in
  at_ ss (length ss - 3) = a ∧ at_ ss (length ss - 2) = b
  ∧ at_ ss (length ss - 1) = c.
Proof.
  simpl. unfold at_. rewrite length_app. simpl.
  rewrite !lookup_app_r by lia.
  replace (length pre + 3 - 3 - length pre) with 0 by lia.
  replace (length pre + 3 - 2 - length pre) with 1 by lia.
  replace (length pre + 3 - 1 - length pre) with 2 by lia.
  done.
Qed.

Lemma lastLabels_last_three (pre : list string) a b c :
  let ss := pre ++ [a; b; c] in
  lastLabels 3 ss = [a; b; c] ∧ lastLabels 2 ss = [b; c]
  ∧ rev ss !! 1 = Some b.
Proof.
  simpl. unfold lastLabels. rewrite length_app. simpl. repeat split.
  - replace (length pre + 3 - 3) with (length pre) by lia.
    by rewrite drop_app_length.
  - replace (length pre + 3 - 2) with (length pre + 1) by lia.
    by rewrite <- drop_drop, drop_app_length.
  - by rewrite rev_app_distr.
Qed.

(** The root domain the code computes is the candidate of the
    specification. *)
Lemma rootDomainOf_spec domain : rootDomainOf domain = candidateRoot_spec domain.
Proof.
  unfold rootDomainOf, candidateRoot_spec.
  set (ss := strings.Split domain ".").
  destruct (2 <? length ss) eqn:Hlen.
  - apply Nat.ltb_lt in Hlen.
    destruct (list_last_three ss) as (pre & a & b & c & Hss); [lia|].
    destruct (at_last_three pre a b c) as (Ha & Hb & Hc).
    destruct (lastLabels_last_three pre a b c) as (H3 & H2 & Hr).
    simpl in Ha, Hb, Hc, H3, H2, Hr. rewrite <- Hss in Ha, Hb, Hc, H3, H2, Hr.
    rewrite Ha, Hb, Hc, H3, H2, Hr. simpl.
    by destruct ((String.length b <? 4) && (3 <=? length ss)).
  - apply Nat.ltb_ge in Hlen.
    replace (3 <=? length ss) with false
      by (symmetry; apply Nat.leb_gt; lia).
    by rewrite andb_false_r.
Qed.

(** C2.  For a domain (the host without its port) that is not a key of
    [ruleMap], the key looked up next is the candidate root of the
    specification: the last two labels of a domain of more than two, the
    last three when the second-to-last label is shorter than 4 bytes, the
    domain itself when it has at most two labels. *)
Theorem fastLookup_root_candidate gfw u :
  ruleMap gfw !! hostDomain u = None →
  fastLookup gfw u = ruleMap gfw !! candidateRoot_spec (hostDomain u).
Proof.
  intros Hd. unfold fastLookup. by rewrite Hd, rootDomainOf_spec.
Qed.

(** The three cases of the candidate, label by label. *)
Lemma rootDomainOf_labels domain :
  let ss := strings.Split domain "." in
  (length ss ≤ 2 → rootDomainOf domain = domain)
  ∧ (∀ pre a b c, ss = pre ++ [a; b; c] →
       rootDomainOf domain =
         if String.length b <? 4 then a +:+ "." +:+ b +:+ "." +:+ c
         else b +:+ "." +:+ c).
Proof.
  simpl. unfold rootDomainOf. split.
  - intros Hl. by replace (2 <? _) with false by (symmetry; apply Nat.ltb_ge; lia).
  - intros pre a b c Hss.
    destruct (at_last_three pre a b c) as (Ha & Hb & Hc).
    simpl in Ha, Hb, Hc. rewrite <- Hss in Ha, Hb, Hc.
    rewrite Ha, Hb, Hc.
    assert (Hl : length (strings.Split domain ".") = length pre + 3)
      by (rewrite Hss, length_app; simpl; lia).
    replace (2 <? _) with true by (symmetry; apply Nat.ltb_lt; lia).
    replace (3 <=? _) with true by (symmetry; apply Nat.leb_le; lia).
    by rewrite andb_true_r.
Qed.

(** ** The parser *)

Lemma HasPrefix_length s p :
  strings.HasPrefix s p = true → String.length p ≤ String.length s.
Proof.
  revert s. induction p as [|c p IH]; intros [|d s]; simpl; try lia; try done.
  destruct (Ascii.eqb d c); [|done]. intros Hp%IH. lia.
Qed.

Lemma HasPrefix_Contains s p :
  strings.HasPrefix s p = true → strings.Contains s p = true.
Proof. intros Hp. destruct s; simpl in *; by rewrite Hp. Qed.

Lemma Contains_empty s : strings.Contains s "" = true.
Proof. by destruct s. Qed.

Lemma string_drop_length n s :
  String.length (string_drop n s) = String.length s - n.
Proof. revert s. induction n as [|n IH]; intros [|c s]; simpl; auto. Qed.

Lemma string_take_all n s : String.length s ≤ n → string_take n s = s.
Proof.
  revert s. induction n as [|n IH]; intros [|c s]; simpl; try done; try lia.
  intros Hl. f_equal. apply IH. lia.
Qed.

Lemma slice_from_ok s lo :
  lo ≤ String.length s → slice_from s lo = Done (string_drop lo s).
Proof.
  intros Hlo. unfold slice_from, slice.
  replace (lo <=? String.length s) with true by (symmetry; by apply Nat.leb_le).
  rewrite Nat.leb_refl. simpl. f_equal.
  apply string_take_all. rewrite string_drop_length. lia.
Qed.

Lemma slice_from_prefix s p n :
  strings.HasPrefix s p = true → String.length p = n →
  slice_from s n = Done (string_drop n s).
Proof. intros Hp%HasPrefix_length <-. by apply slice_from_ok. Qed.

Lemma unwrap_wrapFor str rule :
  isWhiteListRule rule = false → unwrap (wrapFor str rule) = rule.
Proof. unfold wrapFor. destruct (strings.HasPrefix str "@@"), rule; done. Qed.

Lemma HasPrefix_bar2 body :
  strings.HasPrefix body "|" = false → strings.HasPrefix body "||" = false.
Proof.
  destruct body as [|c body]; [done|]. simpl.
  by destruct (Ascii.eqb c "|").
Qed.

(** [buildRule] returns what the form of the line says, wrapped when the
    line starts with "@@". *)
Lemma buildRule_form str rule fastMatch key :
  buildRule str = Done (rule, fastMatch, key) →
  ∃ base, lineForm (ruleBody str) base fastMatch key ∧ rule = wrapFor str base.
Proof.
  unfold buildRule, ruleBody, wrapFor.
  destruct (strings.HasPrefix str "@@") eqn:Hw.
  all: [> rewrite (slice_from_prefix str "@@" 2 Hw eq_refl) | idtac ].
  all: cbn [obind].
  all: match goal with
       | |- context [strings.HasPrefix ?b "/" && strings.HasSuffix ?b "/"] =>
           set (body := b)
       end.
  all: destruct (strings.HasPrefix body "/" && strings.HasSuffix body "/") eqn:Hre.
  all: try (apply andb_true_iff in Hre as [Hre1 Hre2];
            destruct (slice body 1 (String.length body - 1)) as [interior|msg] eqn:Hs;
            cbn [obind]; [|done];
            intros [= <- <- <-]; eexists; split; [by apply form_regex|done]).
  all: destruct (strings.HasPrefix body "||") eqn:H2.
  all: try (rewrite (slice_from_prefix body "||" 2 H2 eq_refl);
            cbn [obind]; intros [= <- <- <-]; eexists; split;
            [by apply form_domain_anchor|done]).
  all: destruct (strings.HasPrefix body "|") eqn:H1.
  all: try (rewrite (slice_from_prefix body "|" 1 H1 eq_refl);
            cbn [obind]; intros [= <- <- <-]; eexists; split;
            [by apply form_url_anchor|done]).
  all: destruct (strings.Contains body "/") eqn:Hc; cbn [negb].
  all: try (cbn [obind]; intros [= <- <- <-]; eexists; split;
            [by apply form_substring|done]).
  all: destruct (strings.HasPrefix body ".") eqn:Hdot.
  all: try (rewrite (slice_from_prefix body "." 1 Hdot eq_refl)).
  all: cbn [obind]; intros [= <- <- <-]; eexists; split; [|done].
  all: pose proof (form_domain body H1 Hc) as Hf; by rewrite Hdot in Hf.
Qed.

Lemma lineForm_fast body base key :
  lineForm body base true key →
  base = hostWildcardRule (if strings.HasPrefix body "||"
                           then string_drop 2 body else body)
  ∧ (strings.HasPrefix body "||" = true
     ∨ (strings.Contains body "/" = false ∧ strings.HasPrefix body "|" = false)).
Proof.
  inversion 1 as [| ? H2 | | H1 Hc |]; subst.
  - rewrite H2. auto.
  - rewrite (HasPrefix_bar2 body H1). auto.
Qed.

Lemma lineForm_slow body base key :
  lineForm body base false key →
  (∃ p, base = regexRule p) ∨ (∃ p prefixMatch, base = urlWildcardRule p prefixMatch).
Proof. inversion 1; subst; eauto. Qed.

Lemma lineForm_not_wrapped body base fastMatch key :
  lineForm body base fastMatch key → isWhiteListRule base = false.
Proof. by inversion 1. Qed.

Lemma not_regex_form body :
  strings.Contains body "/" = false →
  strings.HasPrefix body "/" && strings.HasSuffix body "/" = false.
Proof.
  intros Hc. destruct (strings.HasPrefix body "/") eqn:Hp; [|done].
  apply HasPrefix_Contains in Hp. congruence.
Qed.

(** A line with no '|' in front and no '/' anywhere: a host rule, kept
    under the text without one leading '.'; the rule keeps the dot. *)
Lemma buildRule_domain str :
  let body := ruleBody str in
  strings.HasPrefix body "|" = false → strings.Contains body "/" = false →
  buildRule str =
    Done (wrapFor str (hostWildcardRule body), true,
          if strings.HasPrefix body "." then string_drop 1 body else body).
Proof.
  unfold buildRule, ruleBody, wrapFor.
  destruct (strings.HasPrefix str "@@") eqn:Hw.
  all: [> rewrite (slice_from_prefix str "@@" 2 Hw eq_refl) | idtac ].
  all: cbn [obind]; intros H1 Hc.
  all: rewrite (not_regex_form _ Hc), (HasPrefix_bar2 _ H1), H1, Hc; cbn [negb].
  all: match goal with
       | |- context [strings.HasPrefix ?b "."] =>
           destruct (strings.HasPrefix b ".") eqn:Hdot
       end.
  all: by try rewrite (slice_from_prefix _ "." 1 Hdot eq_refl).
Qed.

(** A line with no '|' in front and a '/' somewhere, not of the form
    [/.../]: a substring rule on the whole text. *)
Lemma buildRule_substring str :
  let body := ruleBody str in
  strings.HasPrefix body "/" && strings.HasSuffix body "/" = false →
  strings.HasPrefix body "|" = false → strings.Contains body "/" = true →
  buildRule str = Done (wrapFor str (urlWildcardRule body false), false, body).
Proof.
  unfold buildRule, ruleBody, wrapFor.
  destruct (strings.HasPrefix str "@@") eqn:Hw.
  all: [> rewrite (slice_from_prefix str "@@" 2 Hw eq_refl) | idtac ].
  all: cbn [obind]; intros Hre H1 Hc.
  all: by rewrite Hre, (HasPrefix_bar2 _ H1), H1, Hc.
Qed.

(** A line that starts with "||": a host rule on all that follows, kept
    under that text, whatever it holds. *)
Lemma buildRule_domain_anchor str :
  let body := ruleBody str in
  strings.HasPrefix body "||" = true →
  buildRule str =
    Done (wrapFor str (hostWildcardRule (string_drop 2 body)), true,
          string_drop 2 body).
Proof.
  unfold buildRule, ruleBody, wrapFor.
  destruct (strings.HasPrefix str "@@") eqn:Hw.
  all: [> rewrite (slice_from_prefix str "@@" 2 Hw eq_refl) | idtac ].
  all: cbn [obind]; intros H2.
  all: match goal with
       | |- context [strings.HasPrefix ?b "/" && _] =>
           replace (strings.HasPrefix b "/") with false
       end.
  all: try by rewrite H2, (slice_from_prefix _ "||" 2 H2 eq_refl).
  all: match type of H2 with
       | strings.HasPrefix ?b _ = _ => destruct b as [|c b']; [done|]
       end.
  all: simpl in *; destruct (Ascii.eqb c "|") eqn:Ec; [|done].
  all: apply Ascii.eqb_eq in Ec as ->; done.
Qed.

(** The only lines on which the loop panics: those that are "/" alone
    after the whitelist mark, where [str[1 : len(str)-1]] is [str[1:0]]. *)
Lemma buildRule_panics str :
  (∃ msg, buildRule str = Panic msg) ↔ ruleBody str = "/".
Proof.
  split.
  - intros [msg Hp]. unfold buildRule, ruleBody in *.
    destruct (strings.HasPrefix str "@@") eqn:Hw.
    all: [> rewrite (slice_from_prefix str "@@" 2 Hw eq_refl) in Hp | idtac ].
    all: cbn [obind] in Hp.
    all: match type of Hp with
         | context [strings.HasPrefix ?b "/" && strings.HasSuffix ?b "/"] =>
             set (body := b) in *
         end.
    all: destruct (strings.HasPrefix body "/" && strings.HasSuffix body "/") eqn:Hre.
    all: try (destruct (strings.HasPrefix body "||") eqn:H2;
              [rewrite (slice_from_prefix body "||" 2 H2 eq_refl) in Hp; done|];
              destruct (strings.HasPrefix body "|") eqn:H1;
              [rewrite (slice_from_prefix body "|" 1 H1 eq_refl) in Hp; done|];
              destruct (strings.Contains body "/"); [done|]; cbn [negb] in Hp;
              destruct (strings.HasPrefix body ".") eqn:Hdot;
              [rewrite (slice_from_prefix body "." 1 Hdot eq_refl) in Hp; done|done]).
    all: apply andb_true_iff in Hre as [Hre1 _].
    all: unfold slice in Hp.
    all: destruct body as [|c [|d body']]; [done| |].
    all: try (simpl in Hre1; destruct (Ascii.eqb c "/") eqn:Ec; [|done];
              by apply Ascii.eqb_eq in Ec as ->).
    all: exfalso; revert Hp; cbn [String.length].
    all: replace (1 <=? S (S (String.length body')) - 1) with true
           by (symmetry; apply Nat.leb_le; lia).
    all: replace (S (S (String.length body')) - 1 <=? S (S (String.length body')))
           with true by (symmetry; apply Nat.leb_le; lia).
    all: done.
  - intros Hb. unfold buildRule, ruleBody in *.
    destruct (strings.HasPrefix str "@@") eqn:Hw.
    all: [> rewrite (slice_from_prefix str "@@" 2 Hw eq_refl) | idtac ].
    all: cbn [obind]; rewrite Hb; by eexists.
Qed.

Section ParserFacts.
Context `{GoStd}.

Lemma fetchLine_cases gfw line gfw' :
  fetchLine gfw line = Done gfw' →
  (isSkipped (TrimSpace line) = true ∧ gfw' = gfw)
  ∨ ∃ rule fastMatch key,
      isSkipped (TrimSpace line) = false
      ∧ buildRule (TrimSpace line) = Done (rule, fastMatch, key)
      ∧ gfw' = storeRule gfw rule fastMatch key.
Proof.
  unfold fetchLine. destruct (isSkipped (TrimSpace line)) eqn:Hs.
  - intros [= <-]. by left.
  - destruct (buildRule (TrimSpace line)) as [[[rule fm] key]|msg]; [|done].
    simpl. intros [= <-]. right. by exists rule, fm, key.
Qed.

(** [ruleList] is the rules of the lines that are not for the map, in
    the order of the lines. *)
Lemma fetchLines_ruleList gfw lines gfw' :
  fetchLines gfw lines = Done gfw' →
  ruleList gfw' = ruleList gfw ++ omap slowRuleOf lines.
Proof.
  revert gfw. induction lines as [|line lines IH]; intros gfw; simpl.
  - intros [= <-]. by rewrite app_nil_r.
  - destruct (fetchLine gfw line) as [g1|msg] eqn:Hl; [|done]. simpl.
    intros Hrest%IH. rewrite Hrest. unfold slowRuleOf.
    apply fetchLine_cases in Hl as [[Hs ->]|(rule & fm & key & Hs & Hb & ->)];
      rewrite Hs; [done|].
    rewrite Hb. unfold storeRule. destruct fm; simpl; [done|].
    by rewrite <- app_assoc.
Qed.

(** Every entry of [ruleMap] was put there by a line that is for the map. *)
Lemma fetchLines_ruleMap gfw lines gfw' key rule :
  fetchLines gfw lines = Done gfw' →
  ruleMap gfw' !! key = Some rule →
  ruleMap gfw !! key = Some rule
  ∨ ∃ line, line ∈ lines ∧ isSkipped (TrimSpace line) = false
            ∧ buildRule (TrimSpace line) = Done (rule, true, key).
Proof.
  revert gfw. induction lines as [|line lines IH]; intros gfw; simpl.
  - intros [= <-]. by left.
  - destruct (fetchLine gfw line) as [g1|msg] eqn:Hl; [|done]. simpl.
    intros Hrest Hk. destruct (IH _ Hrest Hk) as [Hg1|(l & Hin & Hs & Hb)].
    + apply fetchLine_cases in Hl as [[Hs ->]|(r & fm & k & Hs & Hb & ->)];
        [by left|].
      unfold storeRule in Hg1. destruct fm; simpl in Hg1; [|by left].
      destruct (decide (k = key)) as [->|Hne].
      * rewrite lookup_insert_eq in Hg1. injection Hg1 as ->.
        right. exists line. split; [left|done].
      * rewrite lookup_insert_ne in Hg1 by done. by left.
    + right. exists l. split; [by right|done].
Qed.

(** C4, as the code has it.  Every rule in [ruleMap] is a
    [hostWildcardRule], bare or inside a [whiteListRule], and is the rule
    the loop builds from a line of the list that is not skipped, stored
    under the key of that line; unless that line (after "@@") starts with
    "||", the pattern has no '/' and no '|' in front.  [ruleList] holds, in
    the order of the lines, the rules of all other lines, each a
    [regexRule] or a [urlWildcardRule], bare or wrapped; a line with no
    '|' in front and a '/' in it that is not of the form [/.../] is among
    them as a substring rule. *)
Theorem fetchGFWList_rule_placement lines gfwList :
  fetchGFWList lines = Done gfwList →
  (∀ key rule, ruleMap gfwList !! key = Some rule →
     ∃ line pattern,
       line ∈ lines
       ∧ isSkipped (TrimSpace line) = false
       ∧ buildRule (TrimSpace line) = Done (rule, true, key)
       ∧ unwrap rule = hostWildcardRule pattern
       ∧ (strings.HasPrefix (ruleBody (TrimSpace line)) "||" = true
          ∨ (strings.Contains pattern "/" = false
             ∧ strings.HasPrefix pattern "|" = false)))
  ∧ ruleList gfwList = omap slowRuleOf lines
  ∧ (∀ rule, rule ∈ ruleList gfwList →
       (∃ p, unwrap rule = regexRule p)
       ∨ (∃ p prefixMatch, unwrap rule = urlWildcardRule p prefixMatch))
  ∧ (∀ line rule key,
       line ∈ lines → isSkipped (TrimSpace line) = false →
       buildRule (TrimSpace line) = Done (rule, false, key) →
       rule ∈ ruleList gfwList)
  ∧ (∀ line,
       line ∈ lines → isSkipped (TrimSpace line) = false →
       strings.HasPrefix (ruleBody (TrimSpace line)) "/"
         && strings.HasSuffix (ruleBody (TrimSpace line)) "/" = false →
       strings.HasPrefix (ruleBody (TrimSpace line)) "|" = false →
       strings.Contains (ruleBody (TrimSpace line)) "/" = true →
       wrapFor (TrimSpace line)
         (urlWildcardRule (ruleBody (TrimSpace line)) false)
       ∈ ruleList gfwList).
Proof.
  unfold fetchGFWList. intros Hf.
  pose proof (fetchLines_ruleList _ _ _ Hf) as Hl. simpl in Hl.
  assert (Hslow : ∀ line rule key,
    line ∈ lines → isSkipped (TrimSpace line) = false →
    buildRule (TrimSpace line) = Done (rule, false, key) →
    rule ∈ ruleList gfwList).
  { intros line rule key Hin Hs Hb. rewrite Hl.
    apply list_elem_of_omap. exists line. split; [done|].
    unfold slowRuleOf. by rewrite Hs, Hb. }
  split; [|split; [done|split; [|split; [done|]]]].
  - intros key rule Hk.
    destruct (fetchLines_ruleMap _ _ _ _ _ Hf Hk) as [He|(line & Hin & Hs & Hb)];
      [simpl in He; by rewrite lookup_empty in He|].
    pose proof Hb as Hbuilt.
    apply buildRule_form in Hb as (base & Hform & ->).
    pose proof (lineForm_not_wrapped _ _ _ _ Hform) as Hnw.
    apply lineForm_fast in Hform as [-> Hcases].
    exists line. eexists. split; [done|]. split; [done|]. split; [done|].
    split; [by apply unwrap_wrapFor|].
    destruct Hcases as [H2|[Hc H1]]; [by left|right].
    by rewrite (HasPrefix_bar2 _ H1).
  - intros rule Hin. rewrite Hl in Hin.
    apply list_elem_of_omap in Hin as (line & Hin & Hsl).
    unfold slowRuleOf in Hsl.
    destruct (isSkipped (TrimSpace line)); [done|].
    destruct (buildRule (TrimSpace line)) as [[[r fm] k]|msg] eqn:Hb; [|done].
    destruct fm; [done|]. injection Hsl as ->.
    apply buildRule_form in Hb as (base & Hform & ->).
    rewrite (unwrap_wrapFor _ _ (lineForm_not_wrapped _ _ _ _ Hform)).
    by apply lineForm_slow in Hform.
  - intros line Hin Hs Hre H1 Hc.
    eapply Hslow; [done..|]. by apply buildRule_substring.
Qed.

(** C5, as the code has it.  A line that is not skipped, does not start
    with "@@" or '|' and has no '/' (so is not a regular expression
    either) gives a [hostWildcardRule] on the whole text, the leading
    '.' included, kept in [ruleMap] under the text without one leading
    '.'; pattern and key are the same text exactly when the line does
    not start with '.'. *)
Theorem fetchLine_bare_domain gfwList line :
  let str := TrimSpace line in
  let key := if strings.HasPrefix str "." then string_drop 1 str else str in
  isSkipped str = false →
  strings.HasPrefix str "@@" = false →
  strings.HasPrefix str "|" = false →
  strings.Contains str "/" = false →
  buildRule str = Done (hostWildcardRule str, true, key)
  ∧ fetchLine gfwList line = Done (storeRule gfwList (hostWildcardRule str) true key)
  ∧ ruleMap (storeRule gfwList (hostWildcardRule str) true key) !! key
    = Some (hostWildcardRule str)
  ∧ (str = key ↔ strings.HasPrefix str "." = false).
Proof.
  intros str key Hs Hw H1 Hc.
  assert (Hb : buildRule str = Done (hostWildcardRule str, true, key)).
  { pose proof (buildRule_domain str) as Hd.
    unfold ruleBody, wrapFor in Hd. rewrite Hw in Hd. by apply Hd. }
  split; [done|]. split; [|split].
  - unfold fetchLine. fold str. by rewrite Hs, Hb.
  - simpl. apply lookup_insert_eq.
  - subst key. destruct (strings.HasPrefix str ".") eqn:Hdot; [|done].
    split; [|done]. intros Heq.
    apply (f_equal String.length) in Heq.
    rewrite string_drop_length in Heq.
    apply HasPrefix_length in Hdot. simpl in Hdot. lia.
Qed.

(** C10, as the code has it.  A [hostWildcardRule] with the empty
    pattern matches every URL; a line that is "||" alone puts this rule
    into [ruleMap] under the empty key, and a line that is "@@" alone
    puts there not this rule but a [whiteListRule] around it; for an
    input whose host without port is empty that entry decides: blocked
    under the bare rule, not blocked under the wrapped one, the fallback
    list unread. *)
Theorem empty_pattern_rule gfwList line1 line2 gfw host u log :
  TrimSpace line1 = "||" →
  TrimSpace line2 = "@@" →
  url_Parse host = Ok u →
  hostDomain u = "" →
  (∀ v l, match_ (hostWildcardRule "") v l = (true, v, l))
  ∧ fetchLine gfwList line1
    = Done (storeRule gfwList (hostWildcardRule "") true "")
  ∧ fetchLine gfwList line2
    = Done (storeRule gfwList (whiteListRule (hostWildcardRule "")) true "")
  ∧ (∀ rule, ruleMap (storeRule gfwList rule true "") !! "" = Some rule)
  ∧ (ruleMap gfw !! "" = Some (hostWildcardRule "") →
     IsBlockedByGFW gfw host log = (true, log))
  ∧ (ruleMap gfw !! "" = Some (whiteListRule (hostWildcardRule "")) →
     IsBlockedByGFW gfw host log = (false, log)).
Proof.
  intros Ht1 Ht2 Hu Hd.
  assert (Hm : ∀ v l, match_ (hostWildcardRule "") v l = (true, v, l)).
  { intros v l. simpl. by rewrite Contains_empty. }
  split; [done|]. split; [|split; [|split; [|split]]].
  - unfold fetchLine. by rewrite Ht1.
  - unfold fetchLine. by rewrite Ht2.
  - intros rule. simpl. apply lookup_insert_eq.
  - intros Hk.
    rewrite (IsBlockedByGFW_hit gfw host u (hostWildcardRule "") log Hu).
    + unfold matches, logged. rewrite Hm. simpl. by rewrite app_nil_r.
    + unfold fastLookup. by rewrite Hd, Hk.
  - intros Hk.
    rewrite (IsBlockedByGFW_hit gfw host u
               (whiteListRule (hostWildcardRule "")) log Hu).
    + unfold matches, logged.
      change (match_ (whiteListRule (hostWildcardRule "")))
        with (match_ (hostWildcardRule "")).
      rewrite Hm. simpl. by rewrite app_nil_r.
    + unfold fastLookup. by rewrite Hd, Hk.
Qed.

(** C8.  With the list of the two lines "||example.com" and
    "@@||safe.example.com", the host sub.safe.example.com is no key of
    the map; its labels are sub, safe, example, com, the second-to-last
    is not shorter than 4, so the root domain is example.com, whose
    entry is the rule of the first line, not a whitelist rule; the
    input is blocked. *)
Theorem IsBlockedByGFW_sub_safe_example u log :
  url_Parse "http://sub.safe.example.com" = Ok u →
  Host u = "sub.safe.example.com" →
  ∃ gfw,
    fetchGFWList ["||example.com"; "@@||safe.example.com"] = Done gfw
    ∧ ruleMap gfw !! "sub.safe.example.com" = None
    ∧ strings.Split "sub.safe.example.com" "." = ["sub"; "safe"; "example"; "com"]
    ∧ (String.length "example" <? 4) = false
    ∧ rootDomainOf "sub.safe.example.com" = "example.com"
    ∧ ruleMap gfw !! "example.com" = Some (hostWildcardRule "example.com")
    ∧ IsBlockedByGFW gfw "http://sub.safe.example.com" log = (true, log).
Proof.
  intros Hu Hh.
  exists (mkGFWList ""
            (<["safe.example.com" := whiteListRule (hostWildcardRule "safe.example.com")]>
               (<["example.com" := hostWildcardRule "example.com"]> ∅)) []).
  split; [reflexivity|].
  assert (Hd : hostDomain u = "sub.safe.example.com")
    by (unfold hostDomain; by rewrite Hh).
  assert (Hr : rootDomainOf "sub.safe.example.com" = "example.com")
    by reflexivity.
  split; [done|]. split; [reflexivity|]. split; [reflexivity|].
  split; [done|]. split; [done|].
  rewrite (IsBlockedByGFW_hit _ _ u (hostWildcardRule "example.com") log Hu).
  - unfold matches, logged. simpl. rewrite Hh. simpl. by rewrite app_nil_r.
  - unfold fastLookup. cbn [ruleMap]. by rewrite Hd, Hr.
Qed.

End ParserFacts.

(** ** The engine on the sample lists *)

Lemma sampleGFWList_parsed :
  fetchGFWList (H := Ref.std) sampleLines = Done sampleGFWList.
Proof. vm_compute. reflexivity. Qed.

Lemma regexGFWList_parsed :
  fetchGFWList (H := Ref.std) regexLines = Done regexGFWList.
Proof. vm_compute. reflexivity. Qed.

Lemma IsBlockedByGFW_fast_path_witness :
  url_Parse (GoStd := Ref.std) "http://safe.example.com/x"
    = Ok (mkURL "http" "" None "safe.example.com" "/x" "" false false "" "" "")
  ∧ ruleMap sampleGFWList !! "safe.example.com"
    = Some (whiteListRule (hostWildcardRule "safe.example.com"))
  ∧ IsBlockedByGFW (H := Ref.std) sampleGFWList "http://safe.example.com/x" []
    = (false, []).
Proof.
  split; [reflexivity|]. split; [reflexivity|].
  destruct (IsBlockedByGFW_fast_path (H := Ref.std) sampleGFWList
              "http://safe.example.com/x"
              (mkURL "http" "" None "safe.example.com" "/x" "" false false "" "" "")
              (whiteListRule (hostWildcardRule "safe.example.com")) []
              eq_refl (or_introl eq_refl)) as [Hrun _].
  rewrite Hrun. reflexivity.
Defined.

Lemma fastLookup_root_candidate_witness :
  ruleMap sampleGFWList !! hostDomain (hostURL "www.bbc.co.uk:8080") = None
  ∧ fastLookup sampleGFWList (hostURL "www.bbc.co.uk:8080")
    = Some (hostWildcardRule "bbc.co.uk").
Proof.
  split; [reflexivity|].
  rewrite (fastLookup_root_candidate sampleGFWList
             (hostURL "www.bbc.co.uk:8080") eq_refl).
  reflexivity.
Defined.

Lemma IsBlockedByGFW_fallback_witness :
  url_Parse (GoStd := Ref.std) "http://safe.example.com" = Ok (hostURL "safe.example.com")
  ∧ ruleMap regexGFWList !! "safe.example.com" = None
  ∧ ruleMap regexGFWList !! "example.com" = None
  ∧ (IsBlockedByGFW (H := Ref.std) regexGFWList "http://safe.example.com" []).1
    = false.
Proof.
  split; [reflexivity|]. split; [reflexivity|]. split; [reflexivity|].
  destruct (IsBlockedByGFW_fallback (H := Ref.std) regexGFWList
              "http://safe.example.com" (hostURL "safe.example.com") []
              eq_refl eq_refl eq_refl) as (_ & Hfirst & _).
  rewrite Hfirst. reflexivity.
Defined.

Lemma IsBlockedByGFW_parse_error_witness :
  url_Parse (GoStd := Ref.std) ":foo" = Err "missing protocol scheme"
  ∧ IsBlockedByGFW (H := Ref.std) sampleGFWList ":foo" [] = (false, []).
Proof.
  split; [reflexivity|].
  apply (IsBlockedByGFW_parse_error (H := Ref.std) sampleGFWList ":foo"
           "missing protocol scheme" []).
  reflexivity.
Defined.

Lemma regexRule_match_invalid_pattern_witness :
  regexp_Compile (GoStd := Ref.std) "(" = Err "missing closing )"
  ∧ match_ (H := Ref.std) (regexRule "(") (hostURL "example.com") []
    = (false, hostURL "example.com",
       ["Invalid regex pattern: ( width reason: missing closing )"])
  ∧ (IsBlockedByGFW (H := Ref.std) regexGFWList "http://www.example.org" []).1
    = false.
Proof.
  split; [reflexivity|].
  destruct (regexRule_match_invalid_pattern (H := Ref.std) "(" "missing closing )"
              (hostURL "example.com") [] eq_refl) as [Hm Hskip].
  split; [rewrite Hm; reflexivity|].
  rewrite (Hskip regexGFWList "http://www.example.org"
             [whiteListRule (regexRule "safe\.example\.com"); regexRule "example\.com"]
             [] eq_refl).
  reflexivity.
Defined.

Lemma fetchGFWList_rule_placement_witness :
  fetchGFWList (H := Ref.std) sampleLines = Done sampleGFWList
  ∧ ruleList sampleGFWList
    = [urlWildcardRule "http://prefix.test/" true;
       urlWildcardRule "plain.net/path" false].
Proof.
  split; [vm_compute; reflexivity|].
  destruct (fetchGFWList_rule_placement (H := Ref.std) sampleLines sampleGFWList
              sampleGFWList_parsed) as (_ & Hl & _).
  rewrite Hl. vm_compute. reflexivity.
Defined.

(** C4 as stated fails on a line that starts with "||" and goes on with a
    path: the rule is kept in [ruleMap], its pattern has a '/', and
    nothing is appended to [ruleList]. *)
Lemma fetchGFWList_rule_placement_counterexample :
  ∃ gfwList,
    fetchGFWList (H := Ref.std) ["||example.com/path"] = Done gfwList
    ∧ ruleMap gfwList !! "example.com/path"
      = Some (hostWildcardRule "example.com/path")
    ∧ strings.Contains "example.com/path" "/" = true
    ∧ ruleList gfwList = [].
Proof.
  exists (mkGFWList ""
            {["example.com/path" := hostWildcardRule "example.com/path"]} []).
  repeat split; vm_compute; reflexivity.
Qed.

Lemma fetchLine_bare_domain_witness :
  isSkipped (TrimSpace (H := Ref.std) "  .dotted.org  ") = false
  ∧ strings.HasPrefix (TrimSpace (H := Ref.std) "  .dotted.org  ") "@@" = false
  ∧ strings.HasPrefix (TrimSpace (H := Ref.std) "  .dotted.org  ") "|" = false
  ∧ strings.Contains (TrimSpace (H := Ref.std) "  .dotted.org  ") "/" = false
  ∧ buildRule ".dotted.org" = Done (hostWildcardRule ".dotted.org", true, "dotted.org").
Proof.
  split; [reflexivity|]. split; [reflexivity|]. split; [reflexivity|].
  split; [reflexivity|].
  exact (proj1 (fetchLine_bare_domain (H := Ref.std) sampleGFWList
                  "  .dotted.org  " eq_refl eq_refl eq_refl eq_refl)).
Defined.

(** C5 as stated fails on a line that starts with '.': the rule kept
    under the key without the dot has the dot in its pattern. *)
Lemma fetchLine_bare_domain_counterexample :
  isSkipped ".example.com" = false
  ∧ strings.HasPrefix ".example.com" "@@" = false
  ∧ strings.HasPrefix ".example.com" "/" = false
  ∧ strings.HasPrefix ".example.com" "|" = false
  ∧ strings.Contains ".example.com" "/" = false
  ∧ ∃ gfwList,
      fetchGFWList (H := Ref.std) [".example.com"] = Done gfwList
      ∧ ruleMap gfwList !! "example.com" = Some (hostWildcardRule ".example.com")
      ∧ ".example.com" ≠ "example.com".
Proof.
  do 5 (split; [reflexivity|]).
  exists (mkGFWList "" {["example.com" := hostWildcardRule ".example.com"]} []).
  split; [vm_compute; reflexivity|]. split; [vm_compute; reflexivity|]. done.
Qed.

Lemma IsBlockedByGFW_sub_safe_example_witness :
  url_Parse (GoStd := Ref.std) "http://sub.safe.example.com"
    = Ok (hostURL "sub.safe.example.com")
  ∧ Host (hostURL "sub.safe.example.com") = "sub.safe.example.com"
  ∧ ∃ gfw,
      fetchGFWList (H := Ref.std) ["||example.com"; "@@||safe.example.com"] = Done gfw
      ∧ IsBlockedByGFW (H := Ref.std) gfw "http://sub.safe.example.com" [] = (true, []).
Proof.
  split; [reflexivity|]. split; [reflexivity|].
  destruct (IsBlockedByGFW_sub_safe_example (H := Ref.std)
              (hostURL "sub.safe.example.com") [] eq_refl eq_refl)
    as (gfw & Hf & _ & _ & _ & _ & _ & Hb).
  exists gfw. split; assumption.
Defined.

(** C10 as stated fails on the line "@@": what it stores under the empty
    key is not the host rule with the empty pattern but a whitelist rule
    around it, and an input looked up under the empty key is then not
    blocked. *)
Lemma empty_pattern_rule_counterexample :
  isSkipped (TrimSpace (H := Ref.std) "@@") = false
  ∧ ∃ gfwList,
      fetchGFWList (H := Ref.std) ["@@"] = Done gfwList
      ∧ ruleMap gfwList !! "" = Some (whiteListRule (hostWildcardRule ""))
      ∧ ruleMap gfwList !! "" ≠ Some (hostWildcardRule "")
      ∧ hostDomain (mkURL "" "" None "" "example.com" "" false false "" "" "") = ""
      ∧ IsBlockedByGFW (H := Ref.std) gfwList "example.com" [] = (false, []).
Proof.
  split; [reflexivity|].
  exists (mkGFWList "" {["" := whiteListRule (hostWildcardRule "")]} []).
  split; [vm_compute; reflexivity|]. split; [vm_compute; reflexivity|].
  split; [vm_compute; discriminate|]. split; [reflexivity|].
  vm_compute. reflexivity.
Qed.

Lemma empty_pattern_rule_witness :
  TrimSpace (H := Ref.std) " || " = "||"
  ∧ TrimSpace (H := Ref.std) "@@" = "@@"
  ∧ url_Parse (GoStd := Ref.std) "example.com"
    = Ok (mkURL "" "" None "" "example.com" "" false false "" "" "")
  ∧ IsBlockedByGFW (H := Ref.std)
      (storeRule sampleGFWList (hostWildcardRule "") true "") "example.com" []
    = (true, []).
Proof.
  split; [reflexivity|]. split; [reflexivity|]. split; [reflexivity|].
  destruct (empty_pattern_rule (H := Ref.std) sampleGFWList " || " "@@"
              (storeRule sampleGFWList (hostWildcardRule "") true "")
              "example.com"
              (mkURL "" "" None "" "example.com" "" false false "" "" "") []
              eq_refl eq_refl eq_refl eq_refl)
    as (_ & _ & _ & _ & Hbare & _).
  apply Hbare. reflexivity.
Defined.

(** The answers on the sample lists. *)

Example sample_domain_anchor :
  (IsBlockedByGFW (H := Ref.std) sampleGFWList "http://www.example.com/x" []).1 = true
  ∧ (IsBlockedByGFW (H := Ref.std) sampleGFWList "http://example.com:8080" []).1 = true
  ∧ (IsBlockedByGFW (H := Ref.std) sampleGFWList "http://safe.example.com" []).1 = false
  ∧ (IsBlockedByGFW (H := Ref.std) sampleGFWList "http://www.example.org" []).1 = false.
Proof. repeat split; vm_compute; reflexivity. Qed.

Example sample_leading_dot :
  ruleMap sampleGFWList !! "dotted.org" = Some (hostWildcardRule ".dotted.org")
  ∧ (IsBlockedByGFW (H := Ref.std) sampleGFWList "http://www.dotted.org" []).1 = true
  ∧ (IsBlockedByGFW (H := Ref.std) sampleGFWList "http://dotted.org" []).1 = false.
Proof. repeat split; vm_compute; reflexivity. Qed.

Example sample_ruleList :
  (IsBlockedByGFW (H := Ref.std) sampleGFWList "http://prefix.test/page" []).1 = true
  ∧ (IsBlockedByGFW (H := Ref.std) sampleGFWList "https://prefix.test/page" []).1 = false
  ∧ (IsBlockedByGFW (H := Ref.std) sampleGFWList "plain.net/path/more" []).1 = true
  ∧ (IsBlockedByGFW (H := Ref.std) sampleGFWList "http://anchored.net/path" []).1 = false.
Proof. repeat split; vm_compute; reflexivity. Qed.

Example sample_first_match_wins :
  (IsBlockedByGFW (H := Ref.std) regexGFWList "http://safe.example.com" []).1 = false
  ∧ (IsBlockedByGFW (H := Ref.std) regexGFWList "http://www.example.com" []).1 = true
  ∧ IsBlockedByGFW (H := Ref.std) regexGFWList "http://www.example.org" []
    = (false, ["Invalid regex pattern: ( width reason: missing closing )"]).
Proof. repeat split; vm_compute; reflexivity. Qed.

Example sample_panic :
  fetchGFWList (H := Ref.std) ["||example.com"; "/"]
  = Panic "slice bounds out of range".
Proof. vm_compute. reflexivity. Qed.

(** * Further properties *)

(** ** Byte strings *)

Lemma append_nil_l t : "" +:+ t = t.
Proof. reflexivity. Qed.

Lemma append_cons c s t : String c s +:+ t = String c (s +:+ t).
Proof. reflexivity. Qed.

Lemma append_nil_r s : s +:+ "" = s.
Proof. induction s as [|c s IH]; [done|]. by rewrite append_cons, IH. Qed.

Lemma append_assoc a b c : (a +:+ b) +:+ c = a +:+ b +:+ c.
Proof. induction a as [|x a IH]; [done|]. by rewrite !append_cons, IH. Qed.

Lemma append_length a b :
  String.length (a +:+ b) = String.length a + String.length b.
Proof. induction a as [|x a IH]; [done|]. rewrite append_cons. simpl. by rewrite IH. Qed.

Lemma HasPrefix_spec s p :
  strings.HasPrefix s p = true ↔ ∃ b, s = p +:+ b.
Proof.
  revert s. induction p as [|c p IH]; intros s.
  - split; [intros _; by exists s|done].
  - destruct s as [|d s]; simpl.
    + split; [done|]. intros [b Hb]. by rewrite append_cons in Hb.
    + destruct (Ascii.eqb d c) eqn:E.
      * apply Ascii.eqb_eq in E as ->. rewrite IH. split.
        -- intros [b ->]. by exists b.
        -- intros [b Hb]. rewrite append_cons in Hb. injection Hb as ->. by exists b.
      * split; [done|]. intros [b Hb]. rewrite append_cons in Hb.
        injection Hb as -> _. by rewrite Ascii.eqb_refl in E.
Qed.

Lemma Contains_spec s p :
  strings.Contains s p = true ↔ ∃ a b, s = a +:+ p +:+ b.
Proof.
  induction s as [|c s IH].
  - simpl. rewrite orb_false_r, HasPrefix_spec. split.
    + intros [b Hb]. by exists "", b.
    + intros ([|x a] & b & Hb); [by exists b|by rewrite append_cons in Hb].
  - simpl. rewrite orb_true_iff, HasPrefix_spec, IH. split.
    + intros [[b Hb]|(a & b & ->)]; [by exists "", b|by exists (String c a), b].
    + intros ([|x a] & b & Hb); [left; by exists b|].
      rewrite append_cons in Hb. injection Hb as -> ->. right. by exists a, b.
Qed.

Lemma Contains_length s p :
  strings.Contains s p = true → String.length p ≤ String.length s.
Proof.
  intros (a & b & ->)%Contains_spec. rewrite !append_length. lia.
Qed.

Lemma Contains_refl s : strings.Contains s s = true.
Proof. apply Contains_spec. exists "", "". by rewrite append_nil_r. Qed.

Lemma Contains_trans s t p :
  strings.Contains s t = true → strings.Contains t p = true →
  strings.Contains s p = true.
Proof.
  intros (a & b & ->)%Contains_spec (a' & b' & ->)%Contains_spec.
  apply Contains_spec. exists (a +:+ a'), (b' +:+ b).
  by rewrite !append_assoc.
Qed.

Lemma string_take_drop n s : string_take n s +:+ string_drop n s = s.
Proof.
  revert s. induction n as [|n IH]; intros [|c s]; simpl; try done.
  by rewrite append_cons, IH.
Qed.

Lemma string_take_app a b : string_take (String.length a) (a +:+ b) = a.
Proof.
  induction a as [|c a IH]; [by destruct b|].
  rewrite append_cons. simpl. by rewrite IH.
Qed.

Lemma string_drop_app a b : string_drop (String.length a) (a +:+ b) = b.
Proof. induction a as [|c a IH]; [done|]. by rewrite append_cons. Qed.

Lemma rev_app_append s1 s2 : String.rev_app s1 s2 = String.rev s1 +:+ s2.
Proof.
  unfold String.rev. revert s2.
  induction s1 as [|a s1 IH]; intros s2; simpl; [done|].
  rewrite (IH (String a s2)), (IH (String a "")). by rewrite append_assoc.
Qed.

Lemma rev_cons c s : String.rev (String c s) = String.rev s +:+ String c "".
Proof. unfold String.rev at 1. simpl. apply rev_app_append. Qed.

(** ** [strings.Split] and [strings.Join] *)

Lemma Join_cons x l sep :
  l ≠ [] → strings.Join (x :: l) sep = x +:+ sep +:+ strings.Join l sep.
Proof. by destruct l. Qed.

Lemma Join_app l1 l2 sep :
  l1 ≠ [] → l2 ≠ [] →
  strings.Join (l1 ++ l2) sep = strings.Join l1 sep +:+ sep +:+ strings.Join l2 sep.
Proof.
  intros H1 H2. induction l1 as [|x l1 IH]; [done|].
  destruct l1 as [|y l1].
  - simpl app. by rewrite Join_cons.
  - rewrite <- app_comm_cons, Join_cons by done.
    rewrite IH by done. rewrite (Join_cons x (y :: l1)) by done.
    by rewrite !append_assoc.
Qed.

Lemma Split_go_nonempty sep cur s : strings.Split_go sep cur s ≠ [].
Proof.
  revert cur. induction s as [|c s IH]; intros cur; simpl; [done|].
  destruct (Ascii.eqb c sep); [done|apply IH].
Qed.

Lemma Join_Split_go sep cur s :
  strings.Join (strings.Split_go sep cur s) (String sep "") = String.rev cur +:+ s.
Proof.
  revert cur. induction s as [|c s IH]; intros cur.
  - simpl. by rewrite append_nil_r.
  - simpl. destruct (Ascii.eqb c sep) eqn:E.
    + apply Ascii.eqb_eq in E as ->.
      rewrite Join_cons by apply Split_go_nonempty. by rewrite IH.
    + by rewrite IH, rev_cons, append_assoc.
Qed.

(** Splitting at a byte and joining with it gives the string back. *)
Lemma Join_Split s sep :
  strings.Join (strings.Split s sep) (String sep "") = s.
Proof. unfold strings.Split. by rewrite Join_Split_go. Qed.

(** ** The root domain is a suffix of the domain *)

(** X1.  The root domain looked up after a miss is the domain itself or
    what follows one of its dots. *)
Theorem rootDomainOf_suffix domain :
  rootDomainOf domain = domain
  ∨ ∃ front, domain = front +:+ "." +:+ rootDomainOf domain.
Proof.
  destruct (rootDomainOf_labels domain) as [Hshort Hlong]. simpl in *.
  destruct (le_lt_dec (length (strings.Split domain ".")) 2) as [Hl|Hl];
    [left; by apply Hshort|].
  destruct (list_last_three (strings.Split domain ".")) as (pre & a & b & c & Hss);
    [lia|].
  rewrite (Hlong pre a b c Hss).
  pose proof (Join_Split domain ".") as Hj. rewrite Hss in Hj.
  destruct (String.length b <? 4).
  - destruct pre as [|p pre].
    + left. by rewrite <- Hj.
    + right. exists (strings.Join (p :: pre) ".").
      rewrite <- Hj at 1. by rewrite Join_app.
  - right. exists (strings.Join (pre ++ [a]) ".").
    rewrite <- Hj at 1.
    replace (pre ++ [a; b; c]) with ((pre ++ [a]) ++ [b; c])
      by by rewrite <- app_assoc.
    rewrite Join_app; [done| |done]. by destruct pre.
Qed.

Lemma Contains_rootDomainOf domain :
  strings.Contains domain (rootDomainOf domain) = true.
Proof.
  destruct (rootDomainOf_suffix domain) as [->|[front Hd]];
    [apply Contains_refl|].
  apply Contains_spec. exists (front +:+ "."), "".
  by rewrite append_nil_r, append_assoc.
Qed.

(** ** The host without its port is a part of the host *)

Lemma Contains_take n s : strings.Contains s (string_take n s) = true.
Proof.
  apply Contains_spec. exists "", (string_drop n s).
  by rewrite append_nil_l, string_take_drop.
Qed.

Lemma Contains_take_drop n m s :
  strings.Contains s (string_take n (string_drop m s)) = true.
Proof.
  apply Contains_spec.
  exists (string_take m s), (string_drop n (string_drop m s)).
  by rewrite string_take_drop, string_take_drop.
Qed.

Lemma SplitHostPort_tail_host hostport host i j k :
  (net.SplitHostPort_tail hostport host i j k).1.1 = ""
  ∨ (net.SplitHostPort_tail hostport host i j k).1.1 = host.
Proof.
  unfold net.SplitHostPort_tail. repeat case_bool_decide; auto.
Qed.

Lemma Contains_SplitHostPort hostport :
  strings.Contains hostport (net.SplitHostPort hostport).1.1 = true.
Proof.
  unfold net.SplitHostPort.
  repeat match goal with
         | |- context [match ?x with _ => _ end] =>
             lazymatch x with
             | net.SplitHostPort_tail _ _ _ _ _ => fail
             | _ => destruct x eqn:?
             end
         end;
    try apply Contains_empty.
  - destruct (SplitHostPort_tail_host hostport
                (string_take (n0 - 1) (string_drop 1 hostport)) n 1 (n0 + 1))
      as [-> | ->]; [apply Contains_empty|apply Contains_take_drop].
  - destruct (SplitHostPort_tail_host hostport (string_take n hostport) n 0 0)
      as [-> | ->]; [apply Contains_empty|apply Contains_take].
Qed.

Lemma Contains_hostDomain u : strings.Contains (Host u) (hostDomain u) = true.
Proof.
  unfold hostDomain. destruct (strings.Contains (Host u) ":");
    [apply Contains_SplitHostPort|apply Contains_refl].
Qed.

(** [net.SplitHostPort] returns the empty host with every error. *)
Lemma SplitHostPort_error hostport err :
  (net.SplitHostPort hostport).2 = Some err →
  (net.SplitHostPort hostport).1.1 = "".
Proof.
  unfold net.SplitHostPort, net.SplitHostPort_tail, net.addrErr.
  repeat (case_match || case_bool_decide); simpl; congruence.
Qed.

Lemma IndexByte_app_None a b c :
  strings.IndexByte (a +:+ b) c = None ↔
  strings.IndexByte a c = None ∧ strings.IndexByte b c = None.
Proof.
  induction a as [|x a IH]; [rewrite append_nil_l; simpl; tauto|].
  rewrite append_cons. simpl.
  destruct (Ascii.eqb x c); [split; [done|by intros [? _]]|].
  destruct (strings.IndexByte (a +:+ b) c), (strings.IndexByte a c);
    simpl in *; intuition congruence.
Qed.

Lemma LastIndexByte_None s c :
  strings.LastIndexByte s c = None ↔ strings.IndexByte s c = None.
Proof.
  induction s as [|x s IH]; [done|]. simpl.
  destruct (strings.LastIndexByte s c), (strings.IndexByte s c),
    (Ascii.eqb x c); simpl in *; intuition congruence.
Qed.

Lemma LastIndexByte_app a c b :
  strings.IndexByte b c = None →
  strings.LastIndexByte (a +:+ String c b) c = Some (String.length a).
Proof.
  intros Hb%LastIndexByte_None.
  induction a as [|x a IH].
  - rewrite append_nil_l. simpl. by rewrite Hb, Ascii.eqb_refl.
  - rewrite append_cons. simpl. by rewrite IH.
Qed.

Lemma byte_at_0_app a c b :
  strings.IndexByte a "[" = None → c ≠ "["%char →
  Ascii.eqb (byte_at (a +:+ String c b) 0) "[" = false.
Proof.
  intros Ha Hc. destruct a as [|x a].
  - rewrite append_nil_l. unfold byte_at. simpl. by apply Ascii.eqb_neq.
  - rewrite append_cons. unfold byte_at. simpl. simpl in Ha.
    by destruct (Ascii.eqb x "[").
Qed.

(** X2.  A host of the form domain:port, neither part with a colon or a
    bracket, is looked up under the domain. *)
Theorem hostDomain_port u domain port :
  Host u = domain +:+ ":" +:+ port →
  noColonNoBracket domain → noColonNoBracket port →
  hostDomain u = domain.
Proof.
  intros Hh (Hd1 & Hd2 & Hd3) (Hp1 & Hp2 & Hp3).
  unfold hostDomain. rewrite Hh.
  replace (strings.Contains (domain +:+ ":" +:+ port) ":") with true
    by (symmetry; apply Contains_spec; by exists domain, port).
  unfold net.SplitHostPort.
  change (":" +:+ port) with (String ":" port).
  rewrite (LastIndexByte_app domain ":" port Hp1).
  rewrite (byte_at_0_app domain ":" port Hd2) by done.
  rewrite string_take_app, Hd1.
  rewrite bool_decide_eq_false_2 by (by intros [? ?]).
  unfold net.SplitHostPort_tail. simpl string_drop.
  assert (Hb1 : strings.IndexByte (domain +:+ String ":" port) "[" = None)
    by (apply IndexByte_app_None; split; [done|]; simpl; by rewrite Hp2).
  assert (Hb2 : strings.IndexByte (domain +:+ String ":" port) "]" = None)
    by (apply IndexByte_app_None; split; [done|]; simpl; by rewrite Hp3).
  rewrite Hb1, Hb2.
  by rewrite !bool_decide_eq_false_2 by (by intros [? ?]).
Qed.

Lemma fastLookup_empty_domain gfw u :
  hostDomain u = "" → fastLookup gfw u = ruleMap gfw !! "".
Proof.
  intros Hd. unfold fastLookup. rewrite Hd.
  change (rootDomainOf "") with "". by destruct (ruleMap gfw !! "").
Qed.

(** X3.  When the host has a colon and [net.SplitHostPort] rejects it, the
    error is dropped and the lookups are made under the empty key. *)
Theorem hostDomain_split_error gfw u err :
  strings.Contains (Host u) ":" = true →
  (net.SplitHostPort (Host u)).2 = Some err →
  hostDomain u = "" ∧ fastLookup gfw u = ruleMap gfw !! "".
Proof.
  intros Hc He.
  assert (Hd : hostDomain u = "").
  { unfold hostDomain. rewrite Hc. by apply SplitHostPort_error in He. }
  split; [done|by apply fastLookup_empty_domain].
Qed.

(** ** Host rules found by the fast path *)

Section FastPathFacts.
Context `{GoStd}.

Lemma unwrap_hostWildcard rule pattern u :
  unwrap rule = hostWildcardRule pattern →
  matches rule u = strings.Contains (Host u) pattern ∧ logged rule u = [].
Proof.
  unfold matches, logged.
  destruct rule as [p|p pm|p|[p|p pm|p|r]]; simpl; intros [= <-];
    by destruct (strings.Contains _ _).
Qed.

(** X4.  A host rule kept under its own pattern matches whenever the fast
    path finds it, under the domain or under the root domain: the answer
    is then "not blocked" for a whitelist rule and "blocked" otherwise,
    and nothing is logged. *)
Theorem IsBlockedByGFW_key_pattern gfw host u key rule log :
  url_Parse host = Ok u →
  key = hostDomain u
  ∨ (ruleMap gfw !! hostDomain u = None ∧ key = rootDomainOf (hostDomain u)) →
  ruleMap gfw !! key = Some rule →
  unwrap rule = hostWildcardRule key →
  IsBlockedByGFW gfw host log = (negb (isWhiteListRule rule), log).
Proof.
  intros Hu Hkey Hk Hp.
  assert (Hf : fastLookup gfw u = Some rule).
  { apply fastLookup_cases. destruct Hkey as [->|[Hn ->]]; auto. }
  assert (Hc : strings.Contains (Host u) key = true).
  { destruct Hkey as [->|[_ ->]]; [apply Contains_hostDomain|].
    eapply Contains_trans; [apply Contains_hostDomain|apply Contains_rootDomainOf]. }
  rewrite (IsBlockedByGFW_hit gfw host u rule log Hu Hf).
  destruct (unwrap_hostWildcard rule key u Hp) as [-> ->].
  rewrite Hc, app_nil_r. by destruct (isWhiteListRule rule).
Qed.

(** X5.  A host rule kept under its pattern without the leading dot: found
    under the domain of a host that is exactly the key it does not match,
    and the answer is "not blocked" for a plain rule and "blocked" for a
    whitelist rule; found under the root domain it matches, and the answer
    is the other way round.  In both cases [ruleList] is not read. *)
Theorem IsBlockedByGFW_dot_pattern gfw host u key rule log :
  url_Parse host = Ok u →
  ruleMap gfw !! key = Some rule →
  unwrap rule = hostWildcardRule ("." +:+ key) →
  (Host u = key → strings.Contains key ":" = false →
   IsBlockedByGFW gfw host log = (isWhiteListRule rule, log))
  ∧ (ruleMap gfw !! hostDomain u = None → key = rootDomainOf (hostDomain u) →
     IsBlockedByGFW gfw host log = (negb (isWhiteListRule rule), log)).
Proof.
  intros Hu Hk Hp.
  destruct (unwrap_hostWildcard rule _ u Hp) as [Hm Hl].
  split.
  - intros Hh Hc.
    assert (Hd : hostDomain u = key) by (unfold hostDomain; by rewrite Hh, Hc).
    assert (Hf : fastLookup gfw u = Some rule)
      by (apply fastLookup_cases; left; by rewrite Hd).
    rewrite (IsBlockedByGFW_hit gfw host u rule log Hu Hf), Hm, Hl, Hh.
    replace (strings.Contains key ("." +:+ key)) with false.
    + rewrite app_nil_r. by destruct (isWhiteListRule rule).
    + symmetry. apply not_true_is_false. intros Hx%Contains_length.
      rewrite append_length in Hx. simpl in Hx. lia.
  - intros Hn ->.
    assert (Hf : fastLookup gfw u = Some rule)
      by (apply fastLookup_cases; right; done).
    rewrite (IsBlockedByGFW_hit gfw host u rule log Hu Hf), Hm, Hl.
    replace (strings.Contains (Host u) ("." +:+ rootDomainOf (hostDomain u)))
      with true.
    + rewrite app_nil_r. by destruct (isWhiteListRule rule).
    + symmetry. destruct (rootDomainOf_suffix (hostDomain u)) as [He|[front Hd]];
        [congruence|].
      eapply Contains_trans; [apply Contains_hostDomain|].
      apply Contains_spec. exists front, "". by rewrite append_nil_r.
Qed.

End FastPathFacts.

(** ** More on the parser *)

Lemma HasSuffix_app a c :
  strings.HasSuffix (a +:+ String c "") (String c "") = true.
Proof.
  unfold strings.HasSuffix. rewrite append_length. simpl String.length.
  replace (1 <=? String.length a + 1) with true
    by (symmetry; apply Nat.leb_le; lia).
  replace (String.length a + 1 - 1) with (String.length a) by lia.
  simpl. induction a as [|x a IH]; [simpl; by rewrite Ascii.eqb_refl|].
  rewrite append_cons. simpl. exact IH.
Qed.

Lemma slice_interior text c d :
  slice (String c (text +:+ String d ""))
    1 (String.length (String c (text +:+ String d "")) - 1)
  = Done text.
Proof.
  unfold slice. simpl String.length. rewrite append_length. simpl String.length.
  replace (S (String.length text + 1) - 1) with (S (String.length text)) by lia.
  replace (1 <=? S (String.length text)) with true
    by (symmetry; apply Nat.leb_le; lia).
  replace (S (String.length text) <=? S (String.length text + 1)) with true
    by (symmetry; apply Nat.leb_le; lia).
  simpl. replace (String.length text - 0) with (String.length text) by lia.
  by rewrite string_take_app.
Qed.

(** X6.  The grammar of a line, as texts: [/text/] is a regular expression
    on [text]; [||text] a host rule on [text], kept under [text]; [|text]
    a prefix rule on [text]; and [@@] in front wraps the rule of what
    follows, whichever it is. *)
Theorem buildRule_grammar text :
  buildRule ("/" +:+ text +:+ "/") = Done (regexRule text, false, text)
  ∧ buildRule ("||" +:+ text) = Done (hostWildcardRule text, true, text)
  ∧ (strings.HasPrefix text "|" = false →
     buildRule ("|" +:+ text)
     = Done (urlWildcardRule text true, false, "|" +:+ text))
  ∧ (strings.HasPrefix text "@@" = false →
     buildRule ("@@" +:+ text)
     = match buildRule text with
       | Done (rule, fastMatch, key) => Done (whiteListRule rule, fastMatch, key)
       | Panic msg => Panic msg
       end).
Proof.
  split; [|split; [|split]].
  - unfold buildRule.
    change ("/" +:+ text +:+ "/") with (String "/" (text +:+ String "/" "")).
    change (strings.HasPrefix (String "/" (text +:+ String "/" "")) "@@") with false.
    cbn [obind].
    change (strings.HasPrefix (String "/" (text +:+ String "/" "")) "/") with true.
    replace (strings.HasSuffix (String "/" (text +:+ String "/" "")) "/") with true
      by (symmetry; apply (HasSuffix_app (String "/" text) "/")).
    cbn [andb]. by rewrite slice_interior.
  - pose proof (buildRule_domain_anchor ("||" +:+ text)) as Hb.
    unfold ruleBody, wrapFor in Hb.
    change (strings.HasPrefix ("||" +:+ text) "@@") with false in Hb.
    by apply Hb.
  - intros H1. unfold buildRule.
    change ("|" +:+ text) with (String "|" text).
    change (strings.HasPrefix (String "|" text) "@@") with false.
    cbn [obind].
    change (strings.HasPrefix (String "|" text) "/") with false.
    cbn [andb].
    change (strings.HasPrefix (String "|" text) "||")
      with (strings.HasPrefix text "|").
    rewrite H1.
    change (strings.HasPrefix (String "|" text) "|") with true.
    by rewrite (slice_from_ok (String "|" text) 1) by (simpl; lia).
  - intros Hw. unfold buildRule at 1.
    replace (strings.HasPrefix ("@@" +:+ text) "@@") with true
      by (symmetry; apply HasPrefix_spec; by exists text).
    rewrite (slice_from_ok ("@@" +:+ text) 2)
      by (rewrite append_length; simpl; lia).
    change (string_drop 2 ("@@" +:+ text)) with text. cbn [obind].
    unfold buildRule. rewrite Hw. cbn [obind].
    match goal with
    | |- obind ?x _ = _ => destruct x as [[[rule fastMatch] key]|msg]
    end; done.
Qed.

Lemma buildRule_slash str :
  ruleBody str = "/" → buildRule str = Panic "slice bounds out of range".
Proof.
  intros Hb. unfold buildRule, ruleBody in *.
  destruct (strings.HasPrefix str "@@") eqn:Hw.
  all: [> rewrite (slice_from_prefix str "@@" 2 Hw eq_refl) | idtac ].
  all: cbn [obind]; by rewrite Hb.
Qed.

Lemma HasPrefix_dot s :
  strings.HasPrefix s "." = true → s = "." +:+ string_drop 1 s.
Proof. intros [b ->]%HasPrefix_spec. done. Qed.

Section MoreParserFacts.
Context `{GoStd}.

Lemma fetchLines_app gfw l1 l2 :
  fetchLines gfw (l1 ++ l2) = obind (fetchLines gfw l1) (λ g, fetchLines g l2).
Proof.
  revert gfw. induction l1 as [|line l1 IH]; intros gfw; simpl; [done|].
  destruct (fetchLine gfw line) as [g1|msg]; simpl; [apply IH|done].
Qed.

Lemma fetchLine_outcome gfw line :
  match fetchLine gfw line with
  | Done _ => linePanics line = false
  | Panic msg => msg = "slice bounds out of range" ∧ linePanics line = true
  end.
Proof.
  unfold fetchLine, linePanics.
  destruct (isSkipped (TrimSpace line)); [done|]. simpl.
  destruct (String.eqb_spec (ruleBody (TrimSpace line)) "/") as [Hb|Hb].
  - by rewrite (buildRule_slash _ Hb).
  - destruct (buildRule (TrimSpace line)) as [[[rule fm] key]|msg] eqn:Hr; [done|].
    exfalso. apply Hb. apply buildRule_panics. by exists msg.
Qed.

Lemma fetchLines_outcome gfw lines :
  match fetchLines gfw lines with
  | Done _ => Forall (λ line, linePanics line = false) lines
  | Panic msg =>
      msg = "slice bounds out of range"
      ∧ Exists (λ line, linePanics line = true) lines
  end.
Proof.
  revert gfw. induction lines as [|line lines IH]; intros gfw; simpl; [done|].
  pose proof (fetchLine_outcome gfw line) as Hl.
  destruct (fetchLine gfw line) as [g1|msg]; simpl.
  - specialize (IH g1). destruct (fetchLines g1 lines).
    + by constructor.
    + destruct IH as [-> IH]. split; [done|by right].
  - destruct Hl as [-> Hl]. split; [done|by left].
Qed.

(** X7.  The loop returns a list unless a line that is not skipped is "/"
    alone after the whitelist mark; on such a line it panics with a
    slice out of range. *)
Theorem fetchGFWList_outcome lines :
  match fetchGFWList lines with
  | Done _ => Forall (λ line, linePanics line = false) lines
  | Panic msg =>
      msg = "slice bounds out of range"
      ∧ Exists (λ line, linePanics line = true) lines
  end.
Proof. apply fetchLines_outcome. Qed.

Lemma fetchLine_lookup gfw line gfw' key :
  fetchLine gfw line = Done gfw' →
  ruleMap gfw' !! key =
    match fastEntryOf line with
    | Some (k, rule) => if decide (k = key) then Some rule else ruleMap gfw !! key
    | None => ruleMap gfw !! key
    end.
Proof.
  intros [[Hs ->]|(rule & fm & k & Hs & Hb & ->)]%fetchLine_cases;
    unfold fastEntryOf; rewrite Hs; [done|].
  rewrite Hb. unfold storeRule. destruct fm; simpl; [|done].
  by rewrite lookup_insert.
Qed.

Lemma fetchLines_lookup_other gfw lines gfw' key :
  fetchLines gfw lines = Done gfw' →
  Forall (λ line, ∀ rule, fastEntryOf line ≠ Some (key, rule)) lines →
  ruleMap gfw' !! key = ruleMap gfw !! key.
Proof.
  revert gfw. induction lines as [|line lines IH]; intros gfw; simpl.
  - by intros [= <-].
  - destruct (fetchLine gfw line) as [g1|msg] eqn:Hl; [|done]. simpl.
    intros Hrest Hall. inversion Hall as [|? ? Hline Hlines]; subst.
    rewrite (IH _ Hrest Hlines), (fetchLine_lookup _ _ _ key Hl).
    destruct (fastEntryOf line) as [[k rule]|]; [|done].
    destruct (decide (k = key)) as [->|]; [|done]. by destruct (Hline rule).
Qed.

(** X8.  What [ruleMap] holds under a key after the loop: nothing if no
    line is for that key, and otherwise the rule of the last line that
    is: a later line for the same key replaces the earlier one. *)
Theorem fetchGFWList_lookup lines gfwList key :
  fetchGFWList lines = Done gfwList →
  (Forall (λ line, ∀ rule, fastEntryOf line ≠ Some (key, rule)) lines →
   ruleMap gfwList !! key = None)
  ∧ (∀ before line after rule,
       lines = before ++ line :: after →
       fastEntryOf line = Some (key, rule) →
       Forall (λ l, ∀ r, fastEntryOf l ≠ Some (key, r)) after →
       ruleMap gfwList !! key = Some rule).
Proof.
  unfold fetchGFWList. intros Hf. split.
  - intros Hall. by rewrite (fetchLines_lookup_other _ _ _ key Hf Hall).
  - intros before line after rule -> He Hall.
    rewrite fetchLines_app in Hf.
    destruct (fetchLines _ before) as [g1|msg]; [|done]. simpl in Hf.
    destruct (fetchLine g1 line) as [g2|msg] eqn:Hl; [|done]. simpl in Hf.
    rewrite (fetchLines_lookup_other _ _ _ key Hf Hall).
    rewrite (fetchLine_lookup _ _ _ key Hl), He. by rewrite decide_True.
Qed.

(** X9.  Comment lines, header lines and blank lines leave no trace: the
    loop gives the same list without them. *)
Theorem fetchGFWList_skipped lines :
  fetchGFWList (List.filter (λ line, negb (isSkipped (TrimSpace line))) lines)
  = fetchGFWList lines.
Proof.
  unfold fetchGFWList. generalize (mkGFWList "" ∅ []).
  induction lines as [|line lines IH]; intros gfw; [done|].
  cbn [List.filter fetchLines].
  destruct (isSkipped (TrimSpace line)) eqn:Hs; cbn [negb fetchLines].
  - unfold fetchLine. rewrite Hs. cbn [obind]. apply IH.
  - destruct (fetchLine gfw line) as [g1|msg]; cbn [obind]; [apply IH|done].
Qed.

(** X10.  Every entry of the parsed map is a host rule, bare or wrapped
    once, whose pattern is its key or its key with a '.' in front. *)
Theorem fetchGFWList_key_pattern lines gfwList key rule :
  fetchGFWList lines = Done gfwList →
  ruleMap gfwList !! key = Some rule →
  unwrap rule = hostWildcardRule key
  ∨ unwrap rule = hostWildcardRule ("." +:+ key).
Proof.
  unfold fetchGFWList. intros Hf Hk.
  destruct (fetchLines_ruleMap _ _ _ _ _ Hf Hk) as [He|(line & _ & _ & Hb)];
    [simpl in He; by rewrite lookup_empty in He|].
  apply buildRule_form in Hb as (base & Hform & ->).
  rewrite (unwrap_wrapFor _ _ (lineForm_not_wrapped _ _ _ _ Hform)).
  inversion Hform as [| ? H2 | | H1 Hc |]; subst; [by left|].
  destruct (strings.HasPrefix (ruleBody (TrimSpace line)) ".") eqn:Hdot;
    [right|by left].
  by rewrite <- HasPrefix_dot.
Qed.

(** X11.  On a parsed list a hit of the root-domain lookup always decides
    by the kind of the rule alone: blocked, unless it is a whitelist
    rule. *)
Theorem IsBlockedByGFW_parsed_root_hit lines gfw host u rule log :
  fetchGFWList lines = Done gfw →
  url_Parse host = Ok u →
  ruleMap gfw !! hostDomain u = None →
  ruleMap gfw !! rootDomainOf (hostDomain u) = Some rule →
  IsBlockedByGFW gfw host log = (negb (isWhiteListRule rule), log).
Proof.
  intros Hf Hu Hn Hr.
  destruct (fetchGFWList_key_pattern _ _ _ _ Hf Hr) as [Hp|Hp].
  - by apply (IsBlockedByGFW_key_pattern gfw host u
                (rootDomainOf (hostDomain u)) rule log Hu); auto.
  - by apply (IsBlockedByGFW_dot_pattern gfw host u
                (rootDomainOf (hostDomain u)) rule log Hu Hr Hp).
Qed.

End MoreParserFacts.

(** ** More on the engine *)

Section MoreEngineFacts.
Context `{GoStd}.

Lemma firstMatch_truncate before rule after u :
  matches rule u = true →
  firstMatch (before ++ rule :: after) u = firstMatch (before ++ [rule]) u
  ∧ scanLogged (before ++ rule :: after) u = scanLogged (before ++ [rule]) u.
Proof.
  intros Hm. unfold firstMatch.
  induction before as [|b before [IH1 IH2]]; simpl; [by rewrite Hm|].
  by rewrite IH1, IH2.
Qed.

(** X12.  The loop over [ruleList] stops at the first rule that matches:
    the rules after a rule that matches are not evaluated, the answer and
    the log are those of the list cut after that rule. *)
Theorem IsBlockedByGFW_stops_at_match gfw host u before rule after log :
  url_Parse host = Ok u →
  ruleList gfw = before ++ rule :: after →
  matches rule u = true →
  IsBlockedByGFW gfw host log
  = IsBlockedByGFW (mkGFWList (fetchURL gfw) (ruleMap gfw) (before ++ [rule]))
      host log.
Proof.
  intros Hu Hl Hm.
  destruct (fastLookup gfw u) as [r|] eqn:Hf.
  - rewrite (IsBlockedByGFW_hit gfw host u r log Hu Hf).
    by rewrite (IsBlockedByGFW_hit _ host u r log Hu).
  - rewrite (IsBlockedByGFW_miss gfw host u log Hu Hf).
    rewrite (IsBlockedByGFW_miss _ host u log Hu) by done.
    rewrite !scanRuleList_run, Hl. simpl.
    by destruct (firstMatch_truncate before rule after u Hm) as [-> ->].
Qed.

Lemma logged_compiles r u : compiles r = true → logged r u = [].
Proof.
  unfold logged. induction r as [p|p pm|p|r IH]; simpl.
  - by destruct (strings.Contains _ _).
  - by destruct pm.
  - unfold regexp_MatchString. by destruct (regexp_Compile p).
  - exact IH.
Qed.

Lemma scanLogged_compiles rules u :
  Forall (λ r, compiles r = true) rules → scanLogged rules u = [].
Proof.
  induction 1 as [|r rules Hr _ IH]; simpl; [done|].
  rewrite (logged_compiles r u Hr), IH. by destruct (matches r u).
Qed.

Lemma IsBlockedByGFW_frame gfw host log :
  IsBlockedByGFW gfw host log
  = ((IsBlockedByGFW gfw host []).1, log ++ (IsBlockedByGFW gfw host []).2).
Proof.
  destruct (url_Parse host) as [u|e] eqn:Hu.
  - destruct (fastLookup gfw u) as [r|] eqn:Hf.
    + by rewrite !(IsBlockedByGFW_hit gfw host u r _ Hu Hf).
    + rewrite !(IsBlockedByGFW_miss gfw host u _ Hu Hf).
      by rewrite !scanRuleList_run.
  - rewrite !(IsBlockedByGFW_parse_error gfw host e _ Hu). simpl.
    by rewrite app_nil_r.
Qed.

(** X13.  [IsBlockedByGFW] writes to the log only for a regular expression
    that does not compile: with a list all of whose regular expressions
    compile the log is left as it was. *)
Theorem IsBlockedByGFW_no_log gfw host log :
  map_Forall (λ _ rule, compiles rule = true) (ruleMap gfw) →
  Forall (λ r, compiles r = true) (ruleList gfw) →
  (IsBlockedByGFW gfw host log).2 = log.
Proof.
  intros Hmap Hlist.
  destruct (url_Parse host) as [u|e] eqn:Hu.
  - destruct (fastLookup gfw u) as [r|] eqn:Hf.
    + rewrite (IsBlockedByGFW_hit gfw host u r _ Hu Hf). simpl.
      rewrite logged_compiles; [by rewrite app_nil_r|].
      apply fastLookup_cases in Hf as [Hr|[_ Hr]]; by eapply Hmap.
    + rewrite (IsBlockedByGFW_miss gfw host u _ Hu Hf), scanRuleList_run.
      simpl. by rewrite scanLogged_compiles, app_nil_r.
  - by rewrite (IsBlockedByGFW_parse_error gfw host e _ Hu).
Qed.

Lemma firstMatch_elem rules u rule :
  firstMatch rules u = Some rule → rule ∈ rules ∧ matches rule u = true.
Proof.
  unfold firstMatch. intros [Hin Hm]%find_some.
  split; [by apply list_elem_of_In|done].
Qed.

(** X14.  With an empty map and a list of whitelist rules only, the empty
    list included, nothing is blocked. *)
Theorem IsBlockedByGFW_only_whitelist gfw host log :
  ruleMap gfw = ∅ →
  Forall (λ r, isWhiteListRule r = true) (ruleList gfw) →
  (IsBlockedByGFW gfw host log).1 = false.
Proof.
  intros Hmap Hlist.
  destruct (url_Parse host) as [u|e] eqn:Hu.
  - assert (Hf : fastLookup gfw u = None)
      by (unfold fastLookup; by rewrite Hmap, !lookup_empty).
    rewrite (IsBlockedByGFW_miss gfw host u _ Hu Hf), scanRuleList_run. simpl.
    destruct (firstMatch (ruleList gfw) u) as [rule|] eqn:Hfm; [|done].
    apply firstMatch_elem in Hfm as [Hin _].
    rewrite Forall_forall in Hlist. by rewrite (Hlist rule Hin).
  - by rewrite (IsBlockedByGFW_parse_error gfw host e _ Hu).
Qed.

(** After [setFrom] the answers are those of the list taken over,
    with nothing left of the list replaced; [fetchURL] stays, and of two
    replacements the second one counts. *)
Lemma setFrom_replaces gfw target host log :
  IsBlockedByGFW (setFrom gfw target) host log = IsBlockedByGFW target host log
  ∧ fetchURL (setFrom gfw target) = fetchURL gfw
  ∧ ∀ target', setFrom (setFrom gfw target) target' = setFrom gfw target'.
Proof. done. Qed.

End MoreEngineFacts.

(** ** The root domain of a root domain *)

Lemma Split_go_cur sep cur s :
  strings.Split_go sep cur s =
    match strings.Split s sep with
    | first :: rest => (String.rev cur +:+ first) :: rest
    | [] => []
    end.
Proof.
  unfold strings.Split. revert cur.
  induction s as [|c s IH]; intros cur; simpl.
  - by rewrite append_nil_r.
  - destruct (Ascii.eqb c sep); [by rewrite append_nil_r|].
    rewrite (IH (String c cur)), (IH (String c "")).
    destruct (strings.Split_go sep "" s) as [|first rest]; [done|].
    by rewrite rev_cons, append_assoc.
Qed.

Lemma Split_cons_sep s sep :
  strings.Split (String sep s) sep = "" :: strings.Split s sep.
Proof. unfold strings.Split. simpl. by rewrite Ascii.eqb_refl. Qed.

Lemma Split_cons_other c s sep :
  c ≠ sep →
  strings.Split (String c s) sep =
    match strings.Split s sep with
    | first :: rest => String c first :: rest
    | [] => []
    end.
Proof.
  intros Hc%Ascii.eqb_neq. unfold strings.Split at 1. simpl. rewrite Hc.
  by rewrite Split_go_cur.
Qed.

(** No label has the separator in it. *)
Lemma Split_labels s sep :
  Forall (λ label, strings.IndexByte label sep = None) (strings.Split s sep).
Proof.
  induction s as [|c s IH]; [by repeat constructor|].
  destruct (Ascii.eqb_spec c sep) as [->|Hc].
  - rewrite Split_cons_sep. by constructor.
  - rewrite Split_cons_other by done.
    destruct (strings.Split s sep) as [|first rest]; [done|].
    inversion IH as [|? ? Hf Hr]; subst. constructor; [|done].
    simpl. apply Ascii.eqb_neq in Hc. by rewrite Hc, Hf.
Qed.

Lemma Split_label_app label s sep :
  strings.IndexByte label sep = None →
  strings.Split (label +:+ String sep s) sep = label :: strings.Split s sep.
Proof.
  induction label as [|c label IH]; intros Hl.
  - by rewrite append_nil_l, Split_cons_sep.
  - simpl in Hl. destruct (Ascii.eqb c sep) eqn:Hc; [done|].
    apply Ascii.eqb_neq in Hc.
    rewrite append_cons, Split_cons_other by done.
    rewrite IH; [done|]. by destruct (strings.IndexByte label sep).
Qed.

Lemma Split_label label sep :
  strings.IndexByte label sep = None → strings.Split label sep = [label].
Proof.
  induction label as [|c label IH]; intros Hl; [done|].
  simpl in Hl. destruct (Ascii.eqb c sep) eqn:Hc; [done|].
  apply Ascii.eqb_neq in Hc. rewrite Split_cons_other by done.
  rewrite IH; [done|]. by destruct (strings.IndexByte label sep).
Qed.

(** Joining labels and splitting again gives the labels back. *)
Lemma Split_Join labels sep :
  labels ≠ [] →
  Forall (λ label, strings.IndexByte label sep = None) labels →
  strings.Split (strings.Join labels (String sep "")) sep = labels.
Proof.
  intros Hne Hall. induction Hall as [|label labels Hl Hall IH]; [done|].
  destruct labels as [|l2 labels]; [by apply Split_label|].
  rewrite Join_cons by done.
  change (String sep "" +:+ strings.Join (l2 :: labels) (String sep ""))
    with (String sep (strings.Join (l2 :: labels) (String sep ""))).
  rewrite Split_label_app by done. by rewrite IH by done.
Qed.

(** X15.  The root domain is its own root domain: looking up the root
    of a root gives nothing new. *)
Theorem rootDomainOf_idem domain :
  rootDomainOf (rootDomainOf domain) = rootDomainOf domain.
Proof.
  destruct (rootDomainOf_labels domain) as [Hshort Hlong]. simpl in *.
  destruct (le_lt_dec (length (strings.Split domain ".")) 2) as [Hl|Hl];
    [by rewrite (Hshort Hl), (Hshort Hl)|].
  destruct (list_last_three (strings.Split domain ".")) as (pre & a & b & c & Hss);
    [lia|].
  rewrite (Hlong pre a b c Hss).
  pose proof (Split_labels domain ".") as Hlab. rewrite Hss in Hlab.
  apply Forall_app in Hlab as [_ Hlab].
  destruct (String.length b <? 4) eqn:Hb.
  - destruct (rootDomainOf_labels (a +:+ "." +:+ b +:+ "." +:+ c)) as [_ Hroot].
    simpl in Hroot. rewrite (Hroot [] a b c); [by rewrite Hb|].
    by apply (Split_Join [a; b; c] ".").
  - destruct (rootDomainOf_labels (b +:+ "." +:+ c)) as [Hroot _].
    simpl in Hroot. apply Hroot.
    inversion Hlab as [|? ? _ Hbc]; subst.
    change (b +:+ "." +:+ c) with (strings.Join [b; c] ".").
    by rewrite (Split_Join [b; c] ".").
Qed.

Section ExactOnly.
Context `{GoStd}.

(** X16.  An entry whose key is not its own root domain is found for the
    host that is exactly the key and for no other: for every other host
    the answer is the same without the entry. *)
Theorem IsBlockedByGFW_exact_only gfw key host u log :
  rootDomainOf key ≠ key →
  url_Parse host = Ok u →
  hostDomain u ≠ key →
  fastLookup (mkGFWList (fetchURL gfw) (delete key (ruleMap gfw)) (ruleList gfw)) u
  = fastLookup gfw u
  ∧ IsBlockedByGFW
      (mkGFWList (fetchURL gfw) (delete key (ruleMap gfw)) (ruleList gfw)) host log
    = IsBlockedByGFW gfw host log.
Proof.
  intros Hkey Hu Hd.
  assert (Hroot : rootDomainOf (hostDomain u) ≠ key).
  { intros Hr. apply Hkey. rewrite <- Hr. apply rootDomainOf_idem. }
  assert (Hf : fastLookup
                 (mkGFWList (fetchURL gfw) (delete key (ruleMap gfw)) (ruleList gfw)) u
               = fastLookup gfw u).
  { unfold fastLookup. simpl. by rewrite !lookup_delete_ne by done. }
  split; [done|].
  destruct (fastLookup gfw u) as [rule|] eqn:Hl.
  - rewrite (IsBlockedByGFW_hit gfw host u rule log Hu Hl).
    by rewrite (IsBlockedByGFW_hit _ host u rule log Hu Hf).
  - rewrite (IsBlockedByGFW_miss gfw host u log Hu Hl).
    by rewrite (IsBlockedByGFW_miss _ host u log Hu Hf).
Qed.

End ExactOnly.

(** ** The further properties on the sample lists *)

Lemma hostDomain_port_witness :
  Host (hostURL "www.bbc.co.uk:8080") = "www.bbc.co.uk" +:+ ":" +:+ "8080"
  ∧ noColonNoBracket "www.bbc.co.uk" ∧ noColonNoBracket "8080"
  ∧ hostDomain (hostURL "www.bbc.co.uk:8080") = "www.bbc.co.uk".
Proof.
  assert (Hd : noColonNoBracket "www.bbc.co.uk") by (repeat split; reflexivity).
  assert (Hp : noColonNoBracket "8080") by (repeat split; reflexivity).
  split; [reflexivity|]. split; [exact Hd|]. split; [exact Hp|].
  exact (hostDomain_port (hostURL "www.bbc.co.uk:8080") "www.bbc.co.uk" "8080"
           eq_refl Hd Hp).
Defined.

Lemma hostDomain_split_error_witness :
  strings.Contains (Host (hostURL "[::1]")) ":" = true
  ∧ (net.SplitHostPort (Host (hostURL "[::1]"))).2 = Some "missing port in address"
  ∧ hostDomain (hostURL "[::1]") = ""
  ∧ fastLookup sampleGFWList (hostURL "[::1]") = None.
Proof.
  split; [reflexivity|]. split; [reflexivity|].
  destruct (hostDomain_split_error sampleGFWList (hostURL "[::1]")
              "missing port in address" eq_refl eq_refl) as [Hd Hf].
  split; [exact Hd|]. rewrite Hf. reflexivity.
Defined.

Lemma IsBlockedByGFW_key_pattern_witness :
  url_Parse (GoStd := Ref.std) "http://www.example.com:8080/x"
    = Ok (mkURL "http" "" None "www.example.com:8080" "/x" "" false false "" "" "")
  ∧ ruleMap sampleGFWList !! "www.example.com" = None
  ∧ ruleMap sampleGFWList !! "example.com" = Some (hostWildcardRule "example.com")
  ∧ IsBlockedByGFW (H := Ref.std) sampleGFWList "http://www.example.com:8080/x" []
    = (true, []).
Proof.
  split; [reflexivity|]. split; [reflexivity|]. split; [reflexivity|].
  exact (IsBlockedByGFW_key_pattern (H := Ref.std) sampleGFWList
           "http://www.example.com:8080/x"
           (mkURL "http" "" None "www.example.com:8080" "/x" "" false false "" "" "")
           "example.com" (hostWildcardRule "example.com") []
           eq_refl (or_intror (conj eq_refl eq_refl)) eq_refl eq_refl).
Defined.

Lemma IsBlockedByGFW_dot_pattern_witness :
  url_Parse (GoStd := Ref.std) "http://dotted.org" = Ok (hostURL "dotted.org")
  ∧ ruleMap sampleGFWList !! "dotted.org" = Some (hostWildcardRule ".dotted.org")
  ∧ IsBlockedByGFW (H := Ref.std) sampleGFWList "http://dotted.org" [] = (false, []).
Proof.
  split; [reflexivity|]. split; [reflexivity|].
  exact (proj1 (IsBlockedByGFW_dot_pattern (H := Ref.std) sampleGFWList
                  "http://dotted.org" (hostURL "dotted.org") "dotted.org"
                  (hostWildcardRule ".dotted.org") [] eq_refl eq_refl eq_refl)
           eq_refl eq_refl).
Defined.

Lemma buildRule_grammar_witness :
  strings.HasPrefix "http://prefix.test/" "|" = false
  ∧ strings.HasPrefix "||example.com" "@@" = false
  ∧ buildRule "|http://prefix.test/"
    = Done (urlWildcardRule "http://prefix.test/" true, false, "|http://prefix.test/")
  ∧ buildRule "@@||example.com"
    = Done (whiteListRule (hostWildcardRule "example.com"), true, "example.com").
Proof.
  split; [reflexivity|]. split; [reflexivity|].
  destruct (buildRule_grammar "http://prefix.test/") as (_ & _ & Hbar & _).
  destruct (buildRule_grammar "||example.com") as (_ & _ & _ & Hwhite).
  split; [exact (Hbar eq_refl)|exact (Hwhite eq_refl)].
Defined.

Lemma fetchGFWList_lookup_witness :
  ∃ gfwList,
    fetchGFWList (H := Ref.std)
      (["||example.com"] ++ "@@||example.com" :: ["||other.org"]) = Done gfwList
    ∧ fastEntryOf (H := Ref.std) "@@||example.com"
      = Some ("example.com", whiteListRule (hostWildcardRule "example.com"))
    ∧ ruleMap gfwList !! "example.com"
      = Some (whiteListRule (hostWildcardRule "example.com"))
    ∧ ruleMap gfwList !! "absent.net" = None.
Proof.
  eexists. split; [vm_compute; reflexivity|]. split; [reflexivity|].
  match goal with
  | |- ruleMap ?g !! _ = _ ∧ _ =>
      pose proof (fetchGFWList_lookup (H := Ref.std)
                    (["||example.com"] ++ "@@||example.com" :: ["||other.org"])
                    g) as Hlook
  end.
  split.
  - refine (proj2 (Hlook "example.com" _) ["||example.com"] "@@||example.com"
              ["||other.org"] _ eq_refl eq_refl _); [vm_compute; reflexivity|].
    repeat constructor. intros r. vm_compute. discriminate.
  - refine (proj1 (Hlook "absent.net" _) _); [vm_compute; reflexivity|].
    repeat constructor; intros r; vm_compute; discriminate.
Defined.

Lemma fetchGFWList_key_pattern_witness :
  fetchGFWList (H := Ref.std) sampleLines = Done sampleGFWList
  ∧ ruleMap sampleGFWList !! "dotted.org" = Some (hostWildcardRule ".dotted.org")
  ∧ (unwrap (hostWildcardRule ".dotted.org") = hostWildcardRule "dotted.org"
     ∨ unwrap (hostWildcardRule ".dotted.org")
       = hostWildcardRule ("." +:+ "dotted.org")).
Proof.
  split; [vm_compute; reflexivity|]. split; [reflexivity|].
  exact (fetchGFWList_key_pattern (H := Ref.std) sampleLines sampleGFWList
           "dotted.org" (hostWildcardRule ".dotted.org")
           sampleGFWList_parsed eq_refl).
Defined.

Lemma IsBlockedByGFW_parsed_root_hit_witness :
  url_Parse (GoStd := Ref.std) "http://www.dotted.org" = Ok (hostURL "www.dotted.org")
  ∧ ruleMap sampleGFWList !! "www.dotted.org" = None
  ∧ ruleMap sampleGFWList !! "dotted.org" = Some (hostWildcardRule ".dotted.org")
  ∧ IsBlockedByGFW (H := Ref.std) sampleGFWList "http://www.dotted.org" []
    = (true, []).
Proof.
  split; [reflexivity|]. split; [reflexivity|]. split; [reflexivity|].
  exact (IsBlockedByGFW_parsed_root_hit (H := Ref.std) sampleLines sampleGFWList
           "http://www.dotted.org" (hostURL "www.dotted.org")
           (hostWildcardRule ".dotted.org") []
           sampleGFWList_parsed eq_refl eq_refl eq_refl).
Defined.

Lemma IsBlockedByGFW_stops_at_match_witness :
  url_Parse (GoStd := Ref.std) "http://safe.example.com"
    = Ok (hostURL "safe.example.com")
  ∧ ruleList regexGFWList
    = [] ++ whiteListRule (regexRule "safe\.example\.com")
         :: [regexRule "example\.com"; regexRule "("]
  ∧ matches (H := Ref.std) (whiteListRule (regexRule "safe\.example\.com"))
      (hostURL "safe.example.com") = true
  ∧ IsBlockedByGFW (H := Ref.std) regexGFWList "http://safe.example.com" []
    = (false, []).
Proof.
  split; [reflexivity|]. split; [reflexivity|]. split; [reflexivity|].
  rewrite (IsBlockedByGFW_stops_at_match (H := Ref.std) regexGFWList
             "http://safe.example.com" (hostURL "safe.example.com") []
             (whiteListRule (regexRule "safe\.example\.com"))
             [regexRule "example\.com"; regexRule "("] []
             eq_refl eq_refl eq_refl).
  reflexivity.
Defined.

Lemma IsBlockedByGFW_no_log_witness :
  map_Forall (λ _ rule, compiles (H := Ref.std) rule = true) (ruleMap sampleGFWList)
  ∧ Forall (λ r, compiles (H := Ref.std) r = true) (ruleList sampleGFWList)
  ∧ (IsBlockedByGFW (H := Ref.std) sampleGFWList "http://prefix.test/page" []).2 = [].
Proof.
  assert (Hm : map_Forall (λ _ rule, compiles (H := Ref.std) rule = true)
                 (ruleMap sampleGFWList)).
  { apply map_Forall_to_list. vm_compute. repeat constructor. }
  assert (Hl : Forall (λ r, compiles (H := Ref.std) r = true)
                 (ruleList sampleGFWList)).
  { vm_compute. repeat constructor. }
  split; [exact Hm|]. split; [exact Hl|].
  exact (IsBlockedByGFW_no_log (H := Ref.std) sampleGFWList
           "http://prefix.test/page" [] Hm Hl).
Defined.

Lemma IsBlockedByGFW_only_whitelist_witness :
  (IsBlockedByGFW (H := Ref.std)
     (mkGFWList "" ∅ [whiteListRule (urlWildcardRule "example" false)])
     "http://www.example.com" []).1 = false.
Proof.
  apply (IsBlockedByGFW_only_whitelist (H := Ref.std)
           (mkGFWList "" ∅ [whiteListRule (urlWildcardRule "example" false)])
           "http://www.example.com" []).
  - reflexivity.
  - repeat constructor.
Defined.

Lemma IsBlockedByGFW_exact_only_witness :
  rootDomainOf "safe.example.com" ≠ "safe.example.com"
  ∧ url_Parse (GoStd := Ref.std) "http://sub.safe.example.com"
    = Ok (hostURL "sub.safe.example.com")
  ∧ hostDomain (hostURL "sub.safe.example.com") ≠ "safe.example.com"
  ∧ IsBlockedByGFW (H := Ref.std)
      (mkGFWList (fetchURL sampleGFWList)
         (delete "safe.example.com" (ruleMap sampleGFWList))
         (ruleList sampleGFWList))
      "http://sub.safe.example.com" []
    = IsBlockedByGFW (H := Ref.std) sampleGFWList "http://sub.safe.example.com" [].
Proof.
  assert (Hk : rootDomainOf "safe.example.com" ≠ "safe.example.com")
    by (vm_compute; discriminate).
  assert (Hd : hostDomain (hostURL "sub.safe.example.com") ≠ "safe.example.com")
    by (vm_compute; discriminate).
  split; [exact Hk|]. split; [reflexivity|]. split; [exact Hd|].
  exact (proj2 (IsBlockedByGFW_exact_only (H := Ref.std) sampleGFWList
                  "safe.example.com" "http://sub.safe.example.com"
                  (hostURL "sub.safe.example.com") [] Hk eq_refl Hd)).
Defined.
